(** * Adaptive signal and decision engine (candles.js, decisions.js, main.js)

    A shallow embedding of the indicator library, the regime classifier, the
    adaptive weighting, the pattern and micro-structure analysers, the
    decision engine and the duration optimiser, followed by the properties
    proved about them.

    JavaScript numbers are IEEE 754 binary64 values; they are embedded as
    Rocq's primitive [float], which is the same format, so every definition
    below evaluates to the value the script computes.  Array slots that can
    hold [null] are [option float]; an index outside an array reads
    [undefined].  The mutable globals of main.js ([marketRegime],
    [indicatorWeights], [tickBuffer], the stored trade history and the
    granularity selector) form the record [Globals], threaded through a small
    state monad. *)

From Stdlib Require Import ZArith Lia List Bool String Floats Uint63.
From stdpp Require Import base list.

Set Warnings "-inexact-float".

Local Open Scope float_scope.
Local Open Scope nat_scope.

(** ** JavaScript numbers *)

(** The number of a non-negative integer (array lengths, periods). *)
Definition Number_of_nat (n : nat) : float :=
  of_uint63 (Uint63.of_Z (Z.of_nat n)).

(** A value read from an array of numbers-or-null, or from an optional
    record field: a number, [null], or [undefined]. *)
Inductive JsNum : Type :=
| Num (x : float)
| Null
| Undefined.

(** ToNumber: [null] converts to [0], [undefined] to [NaN]. *)
Definition toNumber (v : JsNum) : float :=
  match v with
  | Num x => x
  | Null => 0%float
  | Undefined => nan
  end.

(** ToBoolean on a number: [0], [-0] and [NaN] are falsy. *)
Definition truthy_number (x : float) : bool :=
  negb (is_nan x || (x =? 0)%float).

Definition truthy (v : JsNum) : bool :=
  match v with
  | Num x => truthy_number x
  | Null | Undefined => false
  end.

Definition is_null (v : JsNum) : bool :=
  match v with
  | Null => true
  | _ => false
  end.

(** [a || d] for a numeric default [d]. *)
Definition or_default (v : JsNum) (d : float) : JsNum :=
  if truthy v then v else Num d.

(** [arr[i]] on an array whose slots hold a number or [null]. *)
Definition at_index (arr : list (option float)) (i : nat) : JsNum :=
  match arr !! i with
  | Some (Some x) => Num x
  | Some None => Null
  | None => Undefined
  end.

(** [arr[i]] on an array of numbers, used in arithmetic. *)
Definition num_at (arr : list float) (i : nat) : float :=
  match arr !! i with
  | Some x => x
  | None => nan
  end.

Module Math.

(** [Math.max(a, b)]: NaN if either argument is NaN, [+0] above [-0]. *)
Definition max (a b : float) : float :=
  if is_nan a || is_nan b then nan
  else if (a <? b)%float then b
  else if (b <? a)%float then a
  else if get_sign a then b else a.

(** [Math.min(a, b)]: NaN if either argument is NaN, [-0] below [+0]. *)
Definition min (a b : float) : float :=
  if is_nan a || is_nan b then nan
  else if (a <? b)%float then a
  else if (b <? a)%float then b
  else if get_sign a then a else b.

Definition abs (x : float) : float := PrimFloat.abs x.

Definition sqrt (x : float) : float := PrimFloat.sqrt x.

(** [Math.pow(x, 2)]. *)
Definition pow2 (x : float) : float := (x * x)%float.

(** The float of an integer of magnitude at most 2^53 (exact). *)
Definition of_Z (q : Z) : float :=
  if (q <? 0)%Z then (- of_uint63 (Uint63.of_Z (- q)))%float
  else of_uint63 (Uint63.of_Z q).

(** [Math.round(x)]: the integer nearest to [x], ties towards +infinity;
    NaN, infinities, zeros and integers are returned unchanged, and a
    result of zero keeps the sign of [x].  For a finite [x = ± m * 2^e]
    with [e < 0] the value is [floor (x + 1/2)], computed exactly on
    integers as [(± 2 m + 2^(-e)) / 2^(1 - e)]. *)
Definition round (x : float) : float :=
  match Prim2SF x with
  | S754_finite s m e =>
      if (0 <=? e)%Z then x
      else
        let n := if s then Z.neg m else Z.pos m in
        let q := ((2 * n + 2 ^ (- e)) / 2 ^ (1 - e))%Z in
        if (q =? 0)%Z then (if s then neg_zero else zero)
        else of_Z q
  | _ => x
  end.

End Math.

(** [arr.reduce((a, b) => a + b, 0)]. *)
Definition sum (l : list float) : float :=
  fold_left PrimFloat.add l 0%float.

(** [arr.slice(from, to)] for [0 <= from]. *)
Definition slice {A : Type} (from to : nat) (l : list A) : list A :=
  take (to - from) (drop from l).

(** [arr.slice(-k)]: the last [k] elements ([slice(-0)] is the whole array). *)
Definition slice_last {A : Type} (k : nat) (l : list A) : list A :=
  match k with
  | O => l
  | S _ => drop (length l - k) l
  end.

(** ** Data model *)

Record Candle : Type := mkCandle {
  epoch : Z;
  open : float;
  high : float;
  low : float;
  close : float
}.

Record Tick : Type := mkTick {
  tick_epoch : Z;
  quote : float
}.

(** ** Indicator library (candles.js) *)

(** [calcMA(values, period)].  The loop pushes one slot per index; the test
    [i < period - 1] is written [i + 1 < period]. *)
Definition calcMA (values : list float) (period : nat) : list (option float) :=
  map (fun i =>
         if S i <? period then None
         else
           let window := slice (S i - period) (S i) values in
           Some (sum window / Number_of_nat period)%float)
      (seq 0 (length values)).

(** The tail of the EMA loop: [res[i] = values[i] * k + res[i-1] * (1 - k)]. *)
Fixpoint calcEMA_from (k prev : float) (values : list float) : list float :=
  match values with
  | [] => []
  | v :: rest =>
      let e := (v * k + prev * (1 - k))%float in
      e :: calcEMA_from k e rest
  end.

Definition calcEMA (values : list float) (period : nat) : list float :=
  let k := (2 / (Number_of_nat period + 1))%float in
  match values with
  | [] => []
  | v0 :: rest => v0 :: calcEMA_from k v0 rest
  end.

(** [values[i] - values[i-1]] for [i = 1 .. length - 1]. *)
Definition diffs (values : list float) : list float :=
  zip_with (fun prev cur => (cur - prev)%float) values (tail values).

Definition gains (values : list float) : list float :=
  map (fun d => Math.max 0 d) (diffs values).

Definition losses (values : list float) : list float :=
  map (fun d => Math.max 0 (- d)) (diffs values).

Definition rsiValue (avgGain avgLoss : float) : float :=
  if (avgLoss =? 0)%float then 100%float
  else (100 - 100 / (1 + avgGain / avgLoss))%float.

(** The Wilder smoothing loop of [calcRSI], from index [i] on; [gl] holds the
    pairs [(gains[i-1], losses[i-1])] still to be consumed.  Every index the
    loop assigns is below the length of [rsi], where the list update and the
    array assignment agree. *)
Fixpoint calcRSI_loop (p : float) (gl : list (float * float)) (i : nat)
    (avgGain avgLoss : float) (rsi : list (option float)) : list (option float) :=
  match gl with
  | [] => rsi
  | (g, l) :: rest =>
      let avgGain' := ((avgGain * (p - 1) + g) / p)%float in
      let avgLoss' := ((avgLoss * (p - 1) + l) / p)%float in
      calcRSI_loop p rest (S i) avgGain' avgLoss'
        (<[i := Some (rsiValue avgGain' avgLoss')]> rsi)
  end.

(** [calcRSI(values, period)].  The slot [rsi[period]] exists because the
    guard has excluded [values.length <= period]. *)
Definition calcRSI (values : list float) (period : nat) : list (option float) :=
  let n := length values in
  if n <=? period then replicate n None
  else
    let p := Number_of_nat period in
    let gs := gains values in
    let ls := losses values in
    let rsi := replicate n None in
    let avgGain := (sum (slice 0 period gs) / p)%float in
    let avgLoss := (sum (slice 0 period ls) / p)%float in
    let rsi := <[period := Some (rsiValue avgGain avgLoss)]> rsi in
    calcRSI_loop p (drop period (zip gs ls)) (S period) avgGain avgLoss rsi.

Record Band : Type := mkBand {
  upper : JsNum;
  middle : JsNum;
  lower : JsNum
}.

(** Population variance term [slice.reduce((a, b) => a + Math.pow(b - mean, 2), 0)]. *)
Definition sum_sq_dev (mean : float) (l : list float) : float :=
  fold_left (fun a b => (a + Math.pow2 (b - mean))%float) l 0%float.

Definition calcBollinger (values : list float) (period : nat) (mult : float) : list Band :=
  map (fun i =>
         if S i <? period then mkBand Null Null Null
         else
           let window := slice (S i - period) (S i) values in
           let mean := (sum window / Number_of_nat period)%float in
           let variance := (sum_sq_dev mean window / Number_of_nat period)%float in
           let std := Math.sqrt variance in
           mkBand (Num (mean + mult * std)) (Num mean) (Num (mean - mult * std))%float)
      (seq 0 (length values)).

Definition calcVolatility (closes : list float) (period : nat) : float :=
  if length closes <? period then 0%float
  else
    let window := slice_last period closes in
    let mean := (sum window / Number_of_nat period)%float in
    let variance := (sum_sq_dev mean window / Number_of_nat period)%float in
    Math.sqrt variance.

Record MACD : Type := mkMACD {
  macdLine : list float;
  signalLine : list float;
  histogram : list float
}.

Definition calcMACD (values : list float) (fastPeriod slowPeriod signalPeriod : nat) : MACD :=
  let emaFast := calcEMA values fastPeriod in
  let emaSlow := calcEMA values slowPeriod in
  let macdLine := imap (fun i f => (f - num_at emaSlow i)%float) emaFast in
  let signalLine := calcEMA macdLine signalPeriod in
  let histogram := imap (fun i m => (m - num_at signalLine i)%float) macdLine in
  mkMACD macdLine signalLine histogram.

(** True ranges [tr[i-1]] for [i = 1 .. length - 1]. *)
Definition trueRanges (candles : list Candle) : list float :=
  zip_with (fun prev cur =>
              Math.max
                (Math.max (high cur - low cur) (Math.abs (high cur - close prev)))
                (Math.abs (low cur - close prev)))%float
           candles (tail candles).

(** The smoothing loop of [calcATR]: each step pushes one value computed
    from the value pushed last. *)
Fixpoint calcATR_loop (p : float) (tr : list float) (last : float) : list (option float) :=
  match tr with
  | [] => []
  | t :: rest =>
      let a := ((last * (p - 1) + t) / p)%float in
      Some a :: calcATR_loop p rest a
  end.

Definition calcATR (candles : list Candle) (period : nat) : list (option float) :=
  if length candles <? period + 1 then replicate (length candles) None
  else
    let p := Number_of_nat period in
    let tr := trueRanges candles in
    let first := (sum (slice 0 period tr) / p)%float in
    None :: Some first :: calcATR_loop p (drop period tr) first.

(** ** Regime records *)

Inductive RegimeType : Type :=
| STRONG_UPTREND
| STRONG_DOWNTREND
| UPTREND
| DOWNTREND
| HIGH_VOLATILITY
| CONSOLIDATION
| NEUTRAL
| INSUFFICIENT_DATA
| UNKNOWN.

Module Regime.
Record t : Type := mk {
  type : RegimeType;
  volatility : float;
  trend : float;
  confidence : float;
  atr : JsNum
}.
End Regime.

(** ** Process-wide state (main.js) *)

Module Weights.
Record t : Type := mk {
  ma : float;
  rsi : float;
  bb : float;
  momentum : float;
  volume : float
}.
End Weights.

Record TradeRecord : Type := mkTradeRecord {
  result : string
}.

(** The globals the engine reads and writes.  [tradeHistory] is the parsed
    content of the stored history (empty when nothing is stored) and
    [granularity] the value of [parseInt(granEl.value, 10)]. *)
Record Globals : Type := mkGlobals {
  marketRegime : Regime.t;
  indicatorWeights : Weights.t;
  tickBuffer : list Tick;
  tradeHistory : list TradeRecord;
  granularity : float
}.

Definition initialRegime : Regime.t := Regime.mk UNKNOWN 0 0 0 Undefined.

Definition initialWeights : Weights.t := Weights.mk 1.0 1.0 1.0 1.0 1.0.

(** A computation over the globals. *)
Definition Prog (A : Type) : Type := Globals -> A * Globals.

Definition ret {A : Type} (a : A) : Prog A := fun g => (a, g).

Definition bind {A B : Type} (c : Prog A) (k : A -> Prog B) : Prog B :=
  fun g => let '(a, g') := c g in k a g'.

Definition gets {A : Type} (f : Globals -> A) : Prog A := fun g => (f g, g).

Definition set_marketRegime (r : Regime.t) : Prog unit :=
  fun g => (tt, mkGlobals r (indicatorWeights g) (tickBuffer g) (tradeHistory g) (granularity g)).

Definition set_indicatorWeights (w : Weights.t) : Prog unit :=
  fun g => (tt, mkGlobals (marketRegime g) w (tickBuffer g) (tradeHistory g) (granularity g)).

Declare Scope prog_scope.
Delimit Scope prog_scope with prog.
Notation "'let!' x ':=' c 'in' k" := (bind c (fun x => k))
  (at level 10, x name, c at level 100, k at level 200) : prog_scope.
Notation "'do!' c 'in' k" := (bind c (fun _ => k))
  (at level 10, c at level 100, k at level 200) : prog_scope.

(** ** Market regime detection (candles.js) *)

(** [detectMarketRegime] is called with the globals in scope; its body refers
    to its argument and to the indicator functions only.  The constant
    [priceVsMA], which the function computes and never uses, is left out. *)
Definition detectMarketRegime (candles : list Candle) : Prog Regime.t :=
  if length candles <? 50 then ret (Regime.mk INSUFFICIENT_DATA 0 0 0 Undefined)
  else
    let closes := map close candles in
    let volatility := calcVolatility closes 20 in
    let ma20 := calcMA closes 20 in
    let ma50 := calcMA closes 50 in
    let atr := calcATR candles 14 in
    let currentPrice := num_at closes (length closes - 1) in
    let ma20Current := at_index ma20 (length ma20 - 1) in
    let ma50Current := at_index ma50 (length ma50 - 1) in
    let atrCurrent := at_index atr (length atr - 1) in
    let trendStrength :=
      if truthy ma20Current && truthy ma50Current
      then ((toNumber ma20Current - toNumber ma50Current) / toNumber ma50Current)%float
      else 0%float in
    let volPercentage := (volatility / currentPrice)%float in
    let isHighVol := (0.01 <? volPercentage)%float in
    let isLowVol := (volPercentage <? 0.003)%float in
    let '(regimeType, confidence) :=
      if (0.02 <? Math.abs trendStrength)%float && negb isLowVol then
        (if (0 <? trendStrength)%float then STRONG_UPTREND else STRONG_DOWNTREND, 0.85%float)
      else if (0.01 <? Math.abs trendStrength)%float then
        (if (0 <? trendStrength)%float then UPTREND else DOWNTREND, 0.7%float)
      else if isHighVol then (HIGH_VOLATILITY, 0.6%float)
      else if isLowVol then (CONSOLIDATION, 0.65%float)
      else (NEUTRAL, 0.5%float) in
    ret (Regime.mk regimeType volPercentage trendStrength confidence atrCurrent).

(** ** Candlestick pattern recognition (candles.js) *)

Inductive PatternName : Type :=
| NONE
| DOJI
| HAMMER
| SHOOTING_STAR
| BULLISH_ENGULFING
| BEARISH_ENGULFING
| THREE_WHITE_SOLDIERS
| THREE_BLACK_CROWS.

Inductive PatternSignal : Type :=
| SIG_NEUTRAL
| BULLISH
| BEARISH
| STRONG_BULLISH
| STRONG_BEARISH
| REVERSAL_PENDING.

Module Pattern.
Record t : Type := mk {
  pattern : PatternName;
  strength : float;
  signal : PatternSignal
}.
End Pattern.

Definition noPattern : Pattern.t := Pattern.mk NONE 0 SIG_NEUTRAL.

(** [identifyCandlestickPattern(candles)]; [body1] is computed by the script
    and never used. *)
Definition identifyCandlestickPattern (candles : list Candle) : Pattern.t :=
  let n := length candles in
  if n <? 3 then noPattern
  else
    match candles !! (n - 3), candles !! (n - 2), candles !! (n - 1) with
    | Some c1, Some c2, Some c3 =>
        let body2 := Math.abs (close c2 - open c2) in
        let body3 := Math.abs (close c3 - open c3) in
        let upperWick3 := (high c3 - Math.max (open c3) (close c3))%float in
        let lowerWick3 := (Math.min (open c3) (close c3) - low c3)%float in
        let bodyRange3 := (high c3 - low c3)%float in
        if (body3 <? bodyRange3 * 0.1)%float && (0 <? bodyRange3)%float then
          Pattern.mk DOJI 0.7 REVERSAL_PENDING
        else if (body3 * 2 <? lowerWick3)%float && (upperWick3 <? body3 * 0.3)%float
                && (open c3 <? close c3)%float then
          Pattern.mk HAMMER 0.8 BULLISH
        else if (body3 * 2 <? upperWick3)%float && (lowerWick3 <? body3 * 0.3)%float
                && (close c3 <? open c3)%float then
          Pattern.mk SHOOTING_STAR 0.8 BEARISH
        else if (close c2 <? open c2)%float && (open c3 <? close c3)%float
                && (open c3 <? close c2)%float && (open c2 <? close c3)%float
                && (body2 * 1.2 <? body3)%float then
          Pattern.mk BULLISH_ENGULFING 0.85 BULLISH
        else if (open c2 <? close c2)%float && (close c3 <? open c3)%float
                && (close c2 <? open c3)%float && (close c3 <? open c2)%float
                && (body2 * 1.2 <? body3)%float then
          Pattern.mk BEARISH_ENGULFING 0.85 BEARISH
        else if (open c1 <? close c1)%float && (open c2 <? close c2)%float
                && (open c3 <? close c3)%float
                && (close c1 <? close c2)%float && (close c2 <? close c3)%float then
          Pattern.mk THREE_WHITE_SOLDIERS 0.9 STRONG_BULLISH
        else if (close c1 <? open c1)%float && (close c2 <? open c2)%float
                && (close c3 <? open c3)%float
                && (close c2 <? close c1)%float && (close c3 <? close c2)%float then
          Pattern.mk THREE_BLACK_CROWS 0.9 STRONG_BEARISH
        else noPattern
    | _, _, _ => noPattern (* not reached: the three indices are in range *)
    end.

(** ** Micro-structure analysis (candles.js) *)

Inductive Prediction : Type :=
| UNCERTAIN
| BULLISH_CONTINUATION
| BEARISH_CONTINUATION
| CONSOLIDATION_LIKELY
| DOJI_FORMING.

Module Micro.
Record t : Type := mk {
  momentum : float;
  volatility : float;
  prediction : Prediction;
  confidence : JsNum
}.
End Micro.

Definition analyzeMicroStructure (tickBuffer : list Tick) (currentCandle : Candle) : Micro.t :=
  if length tickBuffer <? 10 then Micro.mk 0 0 UNCERTAIN Undefined
  else
    let recentTicks := slice_last 20 tickBuffer in
    let prices := map quote recentTicks in
    let count := Number_of_nat (length prices) in
    let avgPrice := (sum prices / count)%float in
    let momentum :=
      ((num_at prices (length prices - 1) - num_at prices 0) / num_at prices 0)%float in
    let variance := (sum_sq_dev avgPrice prices / count)%float in
    let microVol := Math.sqrt variance in
    let currentBody := Math.abs (close currentCandle - open currentCandle) in
    let currentRange := (high currentCandle - low currentCandle)%float in
    let prediction :=
      if (0.001 <? microVol / avgPrice)%float && (0.0005 <? momentum)%float then
        BULLISH_CONTINUATION
      else if (0.001 <? microVol / avgPrice)%float && (momentum <? -0.0005)%float then
        BEARISH_CONTINUATION
      else if (microVol / avgPrice <? 0.0003)%float then CONSOLIDATION_LIKELY
      else if (currentBody <? currentRange * 0.2)%float then DOJI_FORMING
      else UNCERTAIN in
    Micro.mk momentum (microVol / avgPrice)%float prediction
             (Num (Math.min (Number_of_nat (length recentTicks) / 20) 1)).

(** ** Adaptive indicator weighting (candles.js) *)

(** The [switch] on the regime type: three groups assign [ma], [momentum],
    [rsi] and [bb] on the existing object; any other type replaces the object. *)
Definition regimeTable (ty : RegimeType) (w : Weights.t) : Weights.t :=
  match ty with
  | STRONG_UPTREND | STRONG_DOWNTREND =>
      Weights.mk 1.3 0.8 0.9 1.4 (Weights.volume w)
  | HIGH_VOLATILITY =>
      Weights.mk 0.7 1.2 1.5 1.1 (Weights.volume w)
  | CONSOLIDATION =>
      Weights.mk 0.6 1.4 1.3 0.5 (Weights.volume w)
  | _ => Weights.mk 1.0 1.0 1.0 1.0 1.0
  end.

(** [Object.keys(indicatorWeights).forEach(k => indicatorWeights[k] *= f)]. *)
Definition scaleWeights (f : float) (w : Weights.t) : Weights.t :=
  Weights.mk (Weights.ma w * f) (Weights.rsi w * f) (Weights.bb w * f)
             (Weights.momentum w * f) (Weights.volume w * f).

Definition winRateScaling (winRate : float) (w : Weights.t) : Weights.t :=
  if (0.65 <? winRate)%float then scaleWeights 1.1 w
  else if (winRate <? 0.45)%float then scaleWeights 0.85 w
  else w.

Definition updateIndicatorWeights (regime : Regime.t) (winRate : float) : Prog unit :=
  (let! w := gets indicatorWeights in
   do! set_indicatorWeights (regimeTable (Regime.type regime) w) in
   let! w' := gets indicatorWeights in
   set_indicatorWeights (winRateScaling winRate w'))%prog.

(** ** Decision engine (decisions.js) *)

Inductive Action : Type :=
| HOLD
| BUY
| SELL
| STRONG_BUY
| STRONG_SELL.

(** The reason of a decision: a literal string, or one of the template
    strings, kept with the values interpolated into it. *)
Inductive Reason : Type :=
| Literal (s : string)
| BullishComposite (compositeSignal : float) (regime : RegimeType) (pattern : PatternName)
| BearishComposite (compositeSignal : float) (regime : RegimeType) (pattern : PatternName)
| ModerateSignal (bullish : bool)
| InsufficientStrength (compositeSignal confidence : float).

Module Indicators.
Record t : Type := mk {
  ma14Now : JsNum;
  ma50Now : JsNum;
  rsiNow : JsNum;
  bbNow : Band;
  volatility : float;
  atr : JsNum;
  macd : option float;
  pattern : Pattern.t;
  microAnalysis : Micro.t
}.
End Indicators.

Module Decision.
Record t : Type := mk {
  action : Action;
  reason : Reason;
  confidence : float;
  compositeSignal : option float;
  indicators : option Indicators.t;
  regime : option Regime.t;
  weights : option Weights.t
}.
End Decision.

(** The three-field object returned by the early exits. *)
Definition holdOnly (why : string) : Decision.t :=
  Decision.mk HOLD (Literal why) 0 None None None None.

(** Win rate over the 20 most recent records, [0.5] when there is none. *)
Definition recentWinRate (hist : list TradeRecord) : float :=
  let recentTrades := slice 0 20 hist in
  if 0 <? length recentTrades then
    (Number_of_nat (length (List.filter (fun t => String.eqb (result t) "WIN") recentTrades))
     / Number_of_nat (length recentTrades))%float
  else 0.5%float.

Module Signals.
Record t : Type := mk {
  trendSignal : float;
  momentumSignal : float;
  rsiSignal : float;
  bbSignal : float;
  macdSignal : float;
  patternSignal : float;
  microSignal : float
}.
End Signals.

Definition trendSignalOf (price : float) (ma14Now : JsNum) (w : Weights.t) : float :=
  ((if (toNumber ma14Now <? price)%float then 1 else -1) * Weights.ma w)%float.

Definition momentumSignalOf (price prevPrice : float) (w : Weights.t) : float :=
  ((price - prevPrice) / prevPrice * 1000 * Weights.momentum w)%float.

Definition rsiSignalOf (rsiNow : JsNum) (w : Weights.t) : float :=
  ((if (toNumber rsiNow <? 30)%float then 1
    else if (70 <? toNumber rsiNow)%float then -1 else 0) * Weights.rsi w)%float.

Definition bbSignalOf (price : float) (bbNow : Band) (w : Weights.t) : float :=
  ((if (price <=? toNumber (lower bbNow))%float then 1
    else if (toNumber (upper bbNow) <=? price)%float then -1 else 0) * Weights.bb w)%float.

Definition macdSignalOf (macdNow : float) : float :=
  ((if (0 <? macdNow)%float then 1 else -1) * 0.8)%float.

Definition patternSignalOf (pattern : Pattern.t) : float :=
  let s0 := 0%float in
  let s1 :=
    match Pattern.signal pattern with
    | BULLISH | STRONG_BULLISH => Pattern.strength pattern
    | _ => s0
    end in
  match Pattern.signal pattern with
  | BEARISH | STRONG_BEARISH => (- Pattern.strength pattern)%float
  | _ => s1
  end.

Definition microSignalOf (microAnalysis : Micro.t) : float :=
  match Micro.prediction microAnalysis with
  | BULLISH_CONTINUATION => 0.6%float
  | BEARISH_CONTINUATION => (-0.6)%float
  | _ => 0%float
  end.

Definition compositeOf (s : Signals.t) : float :=
  (Signals.trendSignal s + Signals.momentumSignal s + Signals.rsiSignal s
   + Signals.bbSignal s + Signals.macdSignal s + Signals.patternSignal s
   + Signals.microSignal s)%float.

(** Confidence before the recent-performance adjustment. *)
Definition baseConfidenceOf (compositeSignal regimeConfidence : float) (pattern : Pattern.t) : float :=
  let signalStrength := Math.abs compositeSignal in
  let baseConfidence := Math.min (signalStrength / 5) 1 in
  let baseConfidence := (baseConfidence * regimeConfidence)%float in
  if (0.7 <? Pattern.strength pattern)%float then (baseConfidence * 1.15)%float
  else baseConfidence.

Definition performanceAdjust (winRate baseConfidence : float) : float :=
  if (0.6 <? winRate)%float then (baseConfidence * 1.1)%float
  else if (winRate <? 0.4)%float then (baseConfidence * 0.85)%float
  else baseConfidence.

Definition confidenceOf (compositeSignal regimeConfidence : float) (pattern : Pattern.t)
    (winRate : float) : float :=
  Math.min (performanceAdjust winRate (baseConfidenceOf compositeSignal regimeConfidence pattern)) 0.95.

(** The action and reason chosen once the volatility filter has passed. *)
Definition selectAction (compositeSignal confidence : float) (regime : RegimeType)
    (pattern : PatternName) : Action * Reason :=
  if (2.5 <? compositeSignal)%float && (0.65 <? confidence)%float then
    (if (4 <? compositeSignal)%float then STRONG_BUY else BUY,
     BullishComposite compositeSignal regime pattern)
  else if (compositeSignal <? -2.5)%float && (0.65 <? confidence)%float then
    (if (compositeSignal <? -4)%float then STRONG_SELL else SELL,
     BearishComposite compositeSignal regime pattern)
  else if (1.5 <? Math.abs compositeSignal)%float && (0.7 <? confidence)%float then
    (if (0 <? compositeSignal)%float then BUY else SELL,
     ModerateSignal (0 <? compositeSignal)%float)
  else (HOLD, InsufficientStrength compositeSignal confidence).

(** [bb[i]]; the index is always in range where the engine reads it. *)
Definition band_at (bb : list Band) (i : nat) : Band :=
  match bb !! i with
  | Some b => b
  | None => mkBand Undefined Undefined Undefined
  end.

(** [candles[candles.length - 1]]; the array is non-empty where it is read. *)
Definition lastCandle (candles : list Candle) : Candle :=
  match candles !! (length candles - 1) with
  | Some c => c
  | None => mkCandle 0 nan nan nan nan
  end.

Definition advancedDecisionEngine (candles : option (list Candle)) : Prog Decision.t :=
  match candles with
  | None => ret (holdOnly "Insufficient data")
  | Some candles =>
    if length candles <? 50 then ret (holdOnly "Insufficient data")
    else
      let closes := map close candles in
      let ma14 := calcMA closes 14 in
      let ma50 := calcMA closes 50 in
      let rsi := calcRSI closes 14 in
      let bb := calcBollinger closes 20 2 in
      let macd := calcMACD closes 12 26 9 in
      let volatility := calcVolatility closes 20 in
      let atr := calcATR candles 14 in
      (let! detected := detectMarketRegime candles in
       do! set_marketRegime detected in
       let! hist := gets tradeHistory in
       let winRate := recentWinRate hist in
       let! regime := gets marketRegime in
       do! updateIndicatorWeights regime winRate in
       let pattern := identifyCandlestickPattern candles in
       let! ticks := gets tickBuffer in
       let microAnalysis := analyzeMicroStructure ticks (lastCandle candles) in
       let i := length closes - 1 in
       let price := num_at closes i in
       let prevPrice := num_at closes (i - 1) in
       let ma14Now := at_index ma14 i in
       let ma50Now := at_index ma50 i in
       let rsiNow := or_default (at_index rsi i) 50 in
       let bbNow := band_at bb i in
       let macdNow := num_at (histogram macd) i in
       let atrNow := at_index atr i in
       if is_null ma14Now || is_null rsiNow || negb (truthy (upper bbNow)) then
         ret (holdOnly "Indicators not ready")
       else
         let! w := gets indicatorWeights in
         let signals :=
           Signals.mk (trendSignalOf price ma14Now w)
                      (momentumSignalOf price prevPrice w)
                      (rsiSignalOf rsiNow w)
                      (bbSignalOf price bbNow w)
                      (macdSignalOf macdNow)
                      (patternSignalOf pattern)
                      (microSignalOf microAnalysis) in
         let compositeSignal := compositeOf signals in
         let! regime := gets marketRegime in
         let confidence :=
           confidenceOf compositeSignal (Regime.confidence regime) pattern winRate in
         if (volatility <? 0.002)%float then
           ret (Decision.mk HOLD (Literal "Extremely low volatility - no edge") 0 None
                  (Some (Indicators.mk ma14Now ma50Now rsiNow bbNow volatility atrNow
                           None pattern microAnalysis))
                  None None)
         else
           let '(action, reason) :=
             selectAction compositeSignal confidence (Regime.type regime)
                          (Pattern.pattern pattern) in
           ret (Decision.mk action reason confidence (Some compositeSignal)
                  (Some (Indicators.mk ma14Now ma50Now rsiNow bbNow volatility atrNow
                           (Some macdNow) pattern microAnalysis))
                  (Some regime) (Some w)))%prog
  end.

(** ** Duration optimisation (decisions.js) *)

Module DurationPlan.
Record t : Type := mk {
  duration : float;
  riskScore : float;
  (* the values interpolated into the rationale string *)
  rationale : float * float * RegimeType * float
}.
End DurationPlan.

(** The [switch] on the regime type: duration multiplier and risk score. *)
Definition regimeAdjustment (ty : RegimeType) : float * float :=
  match ty with
  | STRONG_UPTREND | STRONG_DOWNTREND => (1.5, 0.3)%float
  | HIGH_VOLATILITY => (0.7, 0.7)%float
  | CONSOLIDATION => (0.8, 0.6)%float
  | _ => (1.0, 0.5)%float
  end.

Definition patternAdjustment (pattern : Pattern.t) (mr : float * float) : float * float :=
  let '(m, r) := mr in
  if (0.8 <? Pattern.strength pattern)%float then (m * 1.2, r * 0.85)%float else (m, r).

Definition volatilityAdjustment (volatility : float) (mr : float * float) : float * float :=
  let '(m, r) := mr in
  if (0.015 <? volatility)%float then (m * 0.8, r * 1.2)%float
  else if (volatility <? 0.005)%float then (m * 1.1, r * 0.9)%float
  else (m, r).

Definition confidenceAdjustment (confidence : float) (mr : float * float) : float * float :=
  let '(m, r) := mr in
  if (0.8 <? confidence)%float then (m * 1.15, r * 0.9)%float
  else if (confidence <? 0.6)%float then (m * 0.85, r * 1.1)%float
  else (m, r).

Definition optimizeTradeDuration (decision : Decision.t) (regime : Regime.t)
    (volatility : float) (pattern : Pattern.t) : Prog DurationPlan.t :=
  (let! baseGranularity := gets granularity in
   let '(durationMultiplier, riskScore) :=
     confidenceAdjustment (Decision.confidence decision)
       (volatilityAdjustment volatility
          (patternAdjustment pattern (regimeAdjustment (Regime.type regime)))) in
   let optimizedDuration := Math.round (baseGranularity * durationMultiplier) in
   let finalDuration :=
     Math.max baseGranularity (Math.min optimizedDuration (baseGranularity * 3)) in
   ret (DurationPlan.mk finalDuration (Math.min riskScore 1)
          (baseGranularity, finalDuration, Regime.type regime, volatility)))%prog.

(** ** Definitions used in the statements *)

(** Fewer than 50 candles, or no candle array at all. *)
Definition fewerThan50 (candles : option (list Candle)) : bool :=
  match candles with
  | None => true
  | Some c => length c <? 50
  end.

(** The globals left by a decision cycle that passed the length guard: the
    regime is the one detected on the candles, the weights are the regime
    table followed by the win-rate scaling, everything else is untouched. *)
Definition afterCycle (candles : list Candle) (g : Globals) : Globals :=
  let regime := fst (detectMarketRegime candles g) in
  mkGlobals regime
    (winRateScaling (recentWinRate (tradeHistory g))
       (regimeTable (Regime.type regime) (indicatorWeights g)))
    (tickBuffer g) (tradeHistory g) (granularity g).

(** The indicator snapshot the engine attaches to the low-volatility HOLD. *)
Definition lowVolatilitySnapshot (candles : list Candle) (ticks : list Tick) : Indicators.t :=
  let closes := map close candles in
  let i := length closes - 1 in
  Indicators.mk (at_index (calcMA closes 14) i)
                (at_index (calcMA closes 50) i)
                (or_default (at_index (calcRSI closes 14) i) 50)
                (band_at (calcBollinger closes 20 2) i)
                (calcVolatility closes 20)
                (at_index (calcATR candles 14) i)
                None
                (identifyCandlestickPattern candles)
                (analyzeMicroStructure ticks (lastCandle candles)).

(** The weighted signals of a cycle, from the candles and the globals the
    cycle has just written. *)
Definition cycleSignals (candles : list Candle) (g : Globals) : Signals.t :=
  let closes := map close candles in
  let i := length closes - 1 in
  let price := num_at closes i in
  let w := indicatorWeights g in
  Signals.mk (trendSignalOf price (at_index (calcMA closes 14) i) w)
             (momentumSignalOf price (num_at closes (i - 1)) w)
             (rsiSignalOf (or_default (at_index (calcRSI closes 14) i) 50) w)
             (bbSignalOf price (band_at (calcBollinger closes 20 2) i) w)
             (macdSignalOf (num_at (histogram (calcMACD closes 12 26 9)) i))
             (patternSignalOf (identifyCandlestickPattern candles))
             (microSignalOf (analyzeMicroStructure (tickBuffer g) (lastCandle candles))).

(** The decision of a cycle that passed the three guards. *)
Definition fullDecision (candles : list Candle) (g : Globals) : Decision.t :=
  let closes := map close candles in
  let i := length closes - 1 in
  let pattern := identifyCandlestickPattern candles in
  let compositeSignal := compositeOf (cycleSignals candles g) in
  let regime := marketRegime g in
  let confidence :=
    confidenceOf compositeSignal (Regime.confidence regime) pattern
                 (recentWinRate (tradeHistory g)) in
  let snapshot := lowVolatilitySnapshot candles (tickBuffer g) in
  Decision.mk
    (fst (selectAction compositeSignal confidence (Regime.type regime) (Pattern.pattern pattern)))
    (snd (selectAction compositeSignal confidence (Regime.type regime) (Pattern.pattern pattern)))
    confidence (Some compositeSignal)
    (Some (Indicators.mk (Indicators.ma14Now snapshot) (Indicators.ma50Now snapshot)
             (Indicators.rsiNow snapshot) (Indicators.bbNow snapshot)
             (Indicators.volatility snapshot) (Indicators.atr snapshot)
             (Some (num_at (histogram (calcMACD closes 12 26 9)) i))
             (Indicators.pattern snapshot) (Indicators.microAnalysis snapshot)))
    (Some regime) (Some (indicatorWeights g)).

(** Adjacent elements increase strictly. *)
Fixpoint strictly_increasing (values : list float) : bool :=
  match values with
  | [] => true
  | a :: rest =>
      match rest with
      | [] => true
      | b :: _ => (a <? b)%float && strictly_increasing rest
      end
  end.

(** ** Concrete inputs *)

(** A candle of the [i]-th minute that opens and closes at [c], with a range
    of one unit on each side. *)
Definition candleAt (i : nat) (c : float) : Candle :=
  mkCandle (60 * Z.of_nat i) c (c + 1) (c - 1) c.

(** Closes 100, 101, ..., 149. *)
Definition rising50 : list Candle :=
  map (fun i => candleAt i (Number_of_nat (100 + i))) (seq 0 50).

(** Closes 150, 149, ..., 101. *)
Definition falling50 : list Candle :=
  map (fun i => candleAt i (Number_of_nat (150 - i))) (seq 0 50).

(** Fifty candles with every price at 100. *)
Definition flat50 : list Candle :=
  map (fun i => mkCandle (60 * Z.of_nat i) 100 100 100 100) (seq 0 50).

(** Fifty candles with every price at 0. *)
Definition zero50 : list Candle :=
  map (fun i => mkCandle (60 * Z.of_nat i) 0 0 0 0) (seq 0 50).

(** The first fifteen candles of [rising50]. *)
Definition rising15 : list Candle := take 15 rising50.

(** The globals as main.js initialises them, with a granularity of 60 s. *)
Definition freshGlobals : Globals :=
  mkGlobals initialRegime initialWeights [] [] 60.

(** A strong uptrend, as the regime classifier reports one. *)
Definition strongUptrend : Regime.t := Regime.mk STRONG_UPTREND 0.01 0.03 0.85 (Num 2).

(** ** Predicates on specified binary64 values *)

(** Not NaN, and signed as announced. *)
Definition sf_signed (s : bool) (x : spec_float) : Prop :=
  match x with
  | S754_zero s' | S754_infinity s' | S754_finite s' _ _ => s' = s
  | S754_nan => False
  end.

(** Zero, a positive number or [+infinity]. *)
Definition sf_nonneg (x : spec_float) : Prop :=
  match x with
  | S754_zero _ | S754_infinity false | S754_finite false _ _ => True
  | _ => False
  end.

(** ** Live feed, trade intent and bookkeeping (main.js, decisions.js) *)

Definition CANDLES_COUNT : nat := 200.

(** The candle the tick handler builds from a tick: every price at the quote. *)
Definition tickCandle (t : Tick) : Candle :=
  mkCandle (tick_epoch t) (quote t) (quote t) (quote t) (quote t).

Definition set_tickBuffer (buffer : list Tick) : Prog unit :=
  fun g => (tt, mkGlobals (marketRegime g) (indicatorWeights g) buffer (tradeHistory g)
                          (granularity g)).

(** [tickBuffer.push(tick); if (tickBuffer.length > 50) tickBuffer.shift()]. *)
Definition pushTick (t : Tick) (buffer : list Tick) : list Tick :=
  let buffer := buffer ++ [t] in
  if 50 <? length buffer then drop 1 buffer else buffer.

(** The [data.tick] branch of the message handler.  It stores the tick and,
    when there is a candle history and the tick is later than the last
    candle by more than the granularity, appends a candle for it, evicting
    the oldest beyond [CANDLES_COUNT].  Epochs are integers; they are
    compared as numbers (exact below 2^53).  The chart refresh that follows
    the append only displays. *)
Definition onTick (t : Tick) (candleData : list Candle) : Prog (list Candle) :=
  (let! buffer := gets tickBuffer in
   do! set_tickBuffer (pushTick t buffer) in
   let! gran := gets granularity in
   let latestTick := tickCandle t in
   match candleData !! (length candleData - 1) with
   | Some lastCandle =>
       if (0 <? length candleData)
          && (Math.of_Z (epoch lastCandle) + gran <? Math.of_Z (epoch latestTick))%float
       then
         let candleData := candleData ++ [latestTick] in
         ret (if CANDLES_COUNT <? length candleData then drop 1 candleData else candleData)
       else ret candleData
   | None => ret candleData
   end)%prog.

Inductive ContractType : Type :=
| CALL
| PUT.

(** [action.includes('BUY')]. *)
Definition includesBUY (a : Action) : bool :=
  match a with
  | BUY | STRONG_BUY => true
  | _ => false
  end.

Module Params.
Record t : Type := mk {
  amount : float;
  symbol : string;
  contract_type : ContractType;
  duration : float;
  decision : Action;
  decisionObj : option Decision.t
}.
End Params.

(** [autoCheck] up to its last statement: the trade parameters it builds,
    or nothing when it returns early, with the globals as they are at that
    point.  The call that follows, [simulateTrade] or [requestLiveProposal]
    on these parameters, is not part of this definition.  [stake] is
    [parseFloat(stakeEl.value)] and [symbol] the selected symbol; the feed
    and display calls are left out. *)
Definition autoCheck (candleData : list Candle) (stake : float) (symbol : string)
    : Prog (option Params.t) :=
  if length candleData <? 50 then ret None
  else
    (let! d := advancedDecisionEngine (Some candleData) in
     if (match Decision.action d with HOLD => true | _ => false end)
        || (Decision.confidence d <? 0.65)%float
     then ret None
     else
       match Decision.indicators d with
       | Some indicators =>
           let stake := if truthy_number stake then stake else 1%float in
           let contract_type := if includesBUY (Decision.action d) then CALL else PUT in
           let! regime := gets marketRegime in
           let! durationOptimization :=
             optimizeTradeDuration d regime (Indicators.volatility indicators)
                                   (Indicators.pattern indicators) in
           ret (Some (Params.mk stake symbol contract_type
                        (DurationPlan.duration durationOptimization)
                        (Decision.action d) (Some d)))
       | None => ret None (* not reached: a decision other than HOLD has indicators *)
       end)%prog.

Module Trade.
Record t : Type := mk {
  time : string;
  mode : string;
  symbol : string;
  amount : float;
  decision : Action;
  result : string;
  profit : JsNum;
  confidence : float;
  regime : RegimeType;
  duration : float
}.
End Trade.

Module RegimeEntry.
Record t : Type := mk {
  time : string;
  regime : RegimeType;
  result : string
}.
End RegimeEntry.

Module Metrics.
Record t : Type := mk {
  wins : float;
  losses : float;
  totalProfit : float;
  regimeHistory : list RegimeEntry.t
}.
End Metrics.

Definition initialMetrics : Metrics.t := Metrics.mk 0 0 0 [].

(** The globals together with the counters of decisions.js and main.js.
    The stored history is an array of records; [tradeHistory] of the globals
    holds their [result] fields, which the engine reads, and [storedProfits]
    their [profit] fields, index by index, which [renderHistory] reads. *)
Record Session : Type := mkSession {
  globals : Globals;
  storedProfits : list JsNum;
  performanceMetrics : Metrics.t;
  tradesMade : float
}.

(** How a call ends: it returns, or a [TypeError] leaves it. *)
Inductive Completion : Type :=
| Returns
| Throws.

(** A numeric field after [JSON.stringify] and [JSON.parse]: NaN and the
    infinities are written as [null], [-0] as [0], and an [undefined] field
    is left out. *)
Definition jsonNumber (v : JsNum) : JsNum :=
  match v with
  | Num x =>
      if is_nan x || PrimFloat.is_infinity x then Null
      else if PrimFloat.is_zero x then Num 0
      else Num x
  | Null => Null
  | Undefined => Undefined
  end.

(** Whether [renderHistory()] throws: for each of the first 200 stored
    records it evaluates
    [r.profit !== undefined ? '(' + r.profit.toFixed(2) + ')' : ''],
    and [null] has no [toFixed].  The rest of the function only displays. *)
Definition renderHistory_throws (profits : list JsNum) : bool :=
  existsb is_null (take 200 profits).

(** [updatePerformanceMetrics(record)]: counts the result, adds the profit
    when there is one, and logs the regime, keeping the last 100 entries. *)
Definition updatePerformanceMetrics (record : Trade.t) (s : Session) : Session :=
  let m := performanceMetrics s in
  let wins :=
    if String.eqb (Trade.result record) "WIN" then (Metrics.wins m + 1)%float
    else Metrics.wins m in
  let losses :=
    if String.eqb (Trade.result record) "LOSS" then (Metrics.losses m + 1)%float
    else Metrics.losses m in
  let totalProfit :=
    match Trade.profit record with
    | Undefined => Metrics.totalProfit m
    | p => (Metrics.totalProfit m + toNumber p)%float
    end in
  let history :=
    Metrics.regimeHistory m
    ++ [RegimeEntry.mk (Trade.time record) (Regime.type (marketRegime (globals s)))
                       (Trade.result record)] in
  let history := if 100 <? length history then drop 1 history else history in
  mkSession (globals s) (storedProfits s) (Metrics.mk wins losses totalProfit history)
            (tradesMade s).

(** [saveHistoryRecord(record)]: the record goes to the front of the stored
    history, then [renderHistory()] runs, and only if it returns does
    [updatePerformanceMetrics(record)] run. *)
Definition saveHistoryRecord (record : Trade.t) (s : Session) : Completion * Session :=
  let g := globals s in
  let g := mkGlobals (marketRegime g) (indicatorWeights g) (tickBuffer g)
                     (mkTradeRecord (Trade.result record) :: tradeHistory g)
                     (granularity g) in
  let profits := jsonNumber (Trade.profit record) :: storedProfits s in
  let s := mkSession g profits (performanceMetrics s) (tradesMade s) in
  if renderHistory_throws profits then (Throws, s)
  else (Returns, updatePerformanceMetrics record s).

(** The win probability [simulateTrade] draws against. *)
Definition simulatedWinChance (confidence : float) (compositeSignal : JsNum)
    (regimeType : RegimeType) (pattern : Pattern.t) : float :=
  let baseWinChance := 0.5%float in
  let baseWinChance := (baseWinChance + confidence * 0.25)%float in
  let baseWinChance := (baseWinChance + Math.abs (toNumber compositeSignal) / 10)%float in
  let baseWinChance :=
    match regimeType with
    | STRONG_UPTREND | STRONG_DOWNTREND => (baseWinChance + 0.1)%float
    | HIGH_VOLATILITY => (baseWinChance - 0.05)%float
    | _ => baseWinChance
    end in
  let baseWinChance :=
    if (0.75 <? Pattern.strength pattern)%float then (baseWinChance + 0.08)%float
    else baseWinChance in
  Math.max 0.3 (Math.min 0.85 baseWinChance).

(** [simulateTrade(params, indicators)], with the draw of [Math.random()]
    and the clock reading as inputs.  When [saveHistoryRecord] throws, the
    trade counter is not reached. *)
Definition simulateTrade (params : Params.t) (indicators : Indicators.t)
    (random : float) (now : string) (s : Session) : Completion * Session :=
  let '(confidence, compositeSignal) :=
    match Params.decisionObj params with
    | Some d =>
        (Decision.confidence d,
         match Decision.compositeSignal d with Some c => Num c | None => Undefined end)
    | None => (0.5%float, Num 0)
    end in
  let volFactor := (Indicators.volatility indicators * 100)%float in
  let regimeType := Regime.type (marketRegime (globals s)) in
  let baseWinChance :=
    simulatedWinChance confidence compositeSignal regimeType (Indicators.pattern indicators) in
  let win := (random <? baseWinChance)%float in
  let payoutFactor := if win then (1.75 + volFactor / 10)%float else (-1)%float in
  let profit := (Params.amount params * payoutFactor)%float in
  let rec :=
    Trade.mk now "SIMULATION" (Params.symbol params) (Params.amount params)
             (Params.decision params) (if win then "WIN" else "LOSS") (Num profit)
             confidence regimeType (Params.duration params) in
  match saveHistoryRecord rec s with
  | (Returns, s) =>
      (Returns, mkSession (globals s) (storedProfits s) (performanceMetrics s)
                          (tradesMade s + 1)%float)
  | (Throws, s) => (Throws, s)
  end.

(** ** An order-preserving key for specified binary64 values *)

(** The class of a value (infinities outermost, zeros in the middle) and,
    for a finite value, its exponent and mantissa, negated when the value is
    negative: the comparison of two values is the lexicographic comparison of
    their keys. *)
Definition sf_key (x : spec_float) : option (Z * Z * Z) :=
  match x with
  | S754_nan => None
  | S754_infinity true => Some (-2, 0, 0)%Z
  | S754_finite true m e => Some (-1, - e, Z.neg m)%Z
  | S754_zero _ => Some (0, 0, 0)%Z
  | S754_finite false m e => Some (1, e, Z.pos m)%Z
  | S754_infinity false => Some (2, 0, 0)%Z
  end.

Definition lex3 (k k' : Z * Z * Z) : comparison :=
  let '(a, b, c) := k in
  let '(a', b', c') := k' in
  match (a ?= a')%Z with
  | Eq => match (b ?= b')%Z with
          | Eq => (c ?= c')%Z
          | r => r
          end
  | r => r
  end.

(** Globals left over from an earlier cycle: another regime, other weights. *)
Definition staleGlobals : Globals :=
  mkGlobals strongUptrend (Weights.mk 0.6 1.4 1.3 0.5 1.21) [] [] 60.

(** Fifty candles whose closes drift down from 100 by 0.0001 a candle. *)
Definition driftingDown50 : list Candle :=
  map (fun i => candleAt i (100 - Number_of_nat i * 0.0001)%float) (seq 0 50).

(** [localStorage.removeItem('tradeHistory')]: what [clearHistory] (main.js)
    does to the globals the engine reads. *)
Definition removeStoredHistory : Prog unit :=
  fun g => (tt, mkGlobals (marketRegime g) (indicatorWeights g) (tickBuffer g) []
                          (granularity g)).

(** Twenty wins on record. *)
Definition winningHistory : list TradeRecord := replicate 20 (mkTradeRecord "WIN").

(** The globals after one cycle on [rising50] with twenty wins on record,
    followed by a click on the button that clears the history. *)
Definition clearedAfterWins : Globals :=
  snd (removeStoredHistory
         (snd (advancedDecisionEngine (Some rising50)
                 (mkGlobals initialRegime initialWeights [] winningHistory 60)))).

(** Whether [k / n], computed on numbers, lies between 0 and 1. *)
Definition ratio_in_unit (k n : nat) : bool :=
  ((0 <=? Number_of_nat k / Number_of_nat n)%float
   && (Number_of_nat k / Number_of_nat n <=? 1)%float)%bool.

(** ** Binary64 arithmetic: the specification level *)

Local Open Scope Z_scope.

Lemma digits2_pos_size (p : positive) : digits2_pos p = Pos.size p.
Proof. induction p; simpl; congruence. Qed.

Lemma digits2_bounds (p : positive) :
  2 ^ (Z.pos (digits2_pos p) - 1) <= Z.pos p < 2 ^ Z.pos (digits2_pos p).
Proof.
  rewrite digits2_pos_size. split.
  - pose proof (Pos.size_le p) as H.
    assert (Hz : Z.pos (2 ^ Pos.size p) <= Z.pos p~0) by exact H.
    rewrite Pos2Z.inj_pow in Hz.
    replace (Z.pos (Pos.size p)) with (Z.pos (Pos.size p) - 1 + 1) in Hz by lia.
    rewrite Z.pow_add_r in Hz by lia. lia.
  - pose proof (Pos.size_gt p) as H.
    assert (Hz : Z.pos p < Z.pos (2 ^ Pos.size p)) by exact H.
    now rewrite Pos2Z.inj_pow in Hz.
Qed.

(** A number below [2^k] has at most [k] digits (used contrapositively). *)
Lemma digits2_lower (p : positive) (k : Z) :
  2 ^ k <= Z.pos p -> k < Z.pos (digits2_pos p).
Proof.
  intros H. destruct (digits2_bounds p) as [_ Hu].
  destruct (Z_lt_le_dec k (Z.pos (digits2_pos p))) as [Hlt|Hge]; [exact Hlt|].
  exfalso.
  assert (2 ^ Z.pos (digits2_pos p) <= 2 ^ k) by (apply Z.pow_le_mono_r; lia).
  lia.
Qed.

Lemma iter_pos_nat {A : Type} (f : A -> A) (p : positive) (x : A) :
  SpecFloat.iter_pos f p x = Nat.iter (Pos.to_nat p) f x.
Proof.
  revert x. induction p as [p IH|p IH|]; intros x; cbn [SpecFloat.iter_pos].
  - rewrite !IH. rewrite <- Nat.iter_succ_r, <- Nat.iter_add.
    f_equal. lia.
  - rewrite !IH. rewrite <- Nat.iter_add. f_equal. lia.
  - reflexivity.
Qed.

Lemma shr_1_m (mrs : shr_record) :
  0 <= shr_m mrs -> shr_m (shr_1 mrs) = shr_m mrs / 2.
Proof.
  destruct mrs as [m r s]. simpl. intros Hm.
  destruct m as [|p|p]; [reflexivity| |lia].
  destruct p as [p|p|]; cbn [shr_m].
  - rewrite Pos2Z.inj_xI. apply Z.div_unique with (r := 1); lia.
  - rewrite Pos2Z.inj_xO. apply Z.div_unique with (r := 0); lia.
  - reflexivity.
Qed.

Lemma iter_shr_1_m (n : nat) (mrs : shr_record) :
  0 <= shr_m mrs ->
  shr_m (Nat.iter n shr_1 mrs) = shr_m mrs / 2 ^ Z.of_nat n.
Proof.
  intros Hm. induction n as [|n IH].
  - simpl. now rewrite Z.div_1_r.
  - rewrite Nat2Z.inj_succ, Z.pow_succ_r by lia. simpl.
    rewrite shr_1_m.
    + rewrite IH. rewrite Z.div_div by lia. f_equal. lia.
    + rewrite IH. apply Z.div_pos; lia.
Qed.

(** [shr_fexp] divides the mantissa by a power of two and raises the
    exponent by as much. *)
Lemma shr_fexp_spec (m e : Z) (l : location) :
  0 <= m ->
  let n := Z.max 0 (fexp prec emax (Zdigits2 m + e) - e) in
  shr_m (fst (shr_fexp prec emax m e l)) = m / 2 ^ n
  /\ snd (shr_fexp prec emax m e l) = e + n.
Proof.
  intros Hm n. unfold shr_fexp, shr.
  assert (Hrec : shr_m (shr_record_of_loc m l) = m)
    by (destruct l as [|[| |]]; reflexivity).
  subst n. destruct (fexp prec emax (Zdigits2 m + e) - e) as [|p|p]; simpl.
  - rewrite Hrec, Z.div_1_r. split; [reflexivity|lia].
  - rewrite iter_pos_nat, iter_shr_1_m by lia.
    rewrite Hrec, positive_nat_Z. split; reflexivity.
  - rewrite Hrec, Z.div_1_r. split; [reflexivity|lia].
Qed.

Lemma round_nearest_even_bounds (m : Z) (l : location) :
  m <= round_nearest_even m l <= m + 1.
Proof.
  unfold round_nearest_even. destruct l as [|[| |]]; try lia.
  destruct (Z.even m); lia.
Qed.

Lemma binary_round_aux_signed (s : bool) (m e : Z) (l : location) :
  0 <= m -> sf_signed s (binary_round_aux prec emax s m e l).
Proof.
  intros Hm. unfold binary_round_aux.
  pose proof (shr_fexp_spec m e l Hm) as [H1 _].
  destruct (shr_fexp prec emax m e l) as [mrs1 e1]. simpl in H1.
  pose proof (round_nearest_even_bounds (shr_m mrs1) (loc_of_shr_record mrs1)) as Hr.
  assert (H1pos : 0 <= shr_m mrs1) by (rewrite H1; apply Z.div_pos; lia).
  set (mr := round_nearest_even (shr_m mrs1) (loc_of_shr_record mrs1)) in *.
  assert (Hmr : 0 <= mr) by lia.
  pose proof (shr_fexp_spec mr e1 loc_Exact Hmr) as [H2 _].
  destruct (shr_fexp prec emax mr e1 loc_Exact) as [mrs2 e2]. simpl in H2.
  assert (H2pos : 0 <= shr_m mrs2) by (rewrite H2; apply Z.div_pos; lia).
  destruct (shr_m mrs2) as [|p|p]; simpl; [reflexivity| |lia].
  destruct (e2 <=? emax - prec); reflexivity.
Qed.

Lemma binary_normalize_signed (m e : Z) :
  0 <= m -> sf_signed false (binary_normalize prec emax m e false).
Proof.
  intros Hm. destruct m as [|p|p]; simpl; [reflexivity| |lia].
  unfold binary_round.
  destruct (shl_align p e (fexp prec emax (Z.pos (digits2_pos p) + e))) as [mz ez].
  apply binary_round_aux_signed. lia.
Qed.

Lemma SFcompare_antisym (x y : spec_float) :
  SFcompare y x = option_map CompOpp (SFcompare x y).
Proof.
  destruct x as [sx|sx| |sx mx ex], y as [sy|sy| |sy my ey]; simpl;
    try reflexivity;
    try (destruct sx; reflexivity);
    try (destruct sy; reflexivity);
    try (destruct sx, sy; reflexivity).
  rewrite (Z.compare_antisym ex ey).
  change (Pos.compare_cont Eq my mx) with (Pos.compare my mx).
  change (Pos.compare_cont Eq mx my) with (Pos.compare mx my).
  rewrite (Pos.compare_antisym mx my).
  destruct sx, sy; try reflexivity;
    destruct (ex ?= ey); simpl; try reflexivity;
    destruct (mx ?= my)%positive; reflexivity.
Qed.

Lemma SFcompare_refl (x : spec_float) :
  x <> S754_nan -> SFcompare x x = Some Eq.
Proof.
  destruct x as [s|s| |s m e]; simpl; intros H; try reflexivity.
  - destruct s; reflexivity.
  - congruence.
  - rewrite Z.compare_refl, Pos.compare_cont_refl. destruct s; reflexivity.
Qed.

Lemma SFcompare_not_nan (x y : spec_float) :
  x <> S754_nan -> y <> S754_nan -> exists c, SFcompare x y = Some c.
Proof.
  destruct x, y; simpl; intros Hx Hy; try congruence; eauto.
Qed.

(** Of two canonical mantissas, the one with the larger exponent is larger. *)
Lemma canonical_exponent_order (m1 m2 : positive) (e1 e2 : Z) :
  bounded prec emax m1 e1 = true ->
  bounded prec emax m2 e2 = true ->
  e1 < e2 ->
  Z.pos m1 < Z.pos m2 * 2 ^ (e2 - e1).
Proof.
  unfold bounded, canonical_mantissa, fexp, SpecFloat.emin, prec, emax.
  intros H1 H2 He.
  apply andb_true_iff in H1 as [H1 _]. apply andb_true_iff in H2 as [H2 _].
  apply Z.eqb_eq in H1. apply Z.eqb_eq in H2.
  destruct (digits2_bounds m1) as [_ Hu1]. destruct (digits2_bounds m2) as [Hl2 _].
  assert (Hd2 : Z.pos (digits2_pos m2) = 53) by lia.
  assert (Hd1 : Z.pos (digits2_pos m1) <= 53) by lia.
  rewrite Hd2 in Hl2. change (2 ^ (53 - 1)) with 4503599627370496 in Hl2.
  assert (Hp1 : 2 ^ Z.pos (digits2_pos m1) <= 2 ^ 53) by (apply Z.pow_le_mono_r; lia).
  change (2 ^ 53) with 9007199254740992 in Hp1.
  assert (Hp2 : 2 ^ 1 <= 2 ^ (e2 - e1)) by (apply Z.pow_le_mono_r; lia).
  change (2 ^ 1) with 2 in Hp2.
  nia.
Qed.

Lemma shl_align_fst (m : positive) (e e' : Z) :
  e' <= e -> Z.pos (fst (shl_align m e e')) = Z.pos m * 2 ^ (e - e').
Proof.
  intros He. unfold shl_align.
  destruct (e' - e) as [|p|p] eqn:Hd; cbn [fst].
  - replace (e - e') with 0 by lia. lia.
  - lia.
  - replace (e - e') with (Z.pos p) by lia.
    change (Pos.iter xO m p) with (shift_pos p m).
    rewrite shift_pos_correct.
    change (Zpower_pos 2 p) with (2 ^ Z.pos p). lia.
Qed.

Lemma sf_signed_nonneg (x : spec_float) : sf_signed false x -> sf_nonneg x.
Proof. destruct x as [s|s| |s m e]; simpl; intros H; subst; auto. Qed.

(** Subtracting the smaller of two numbers from the larger gives a
    non-negative number, whatever the rounding. *)
Lemma SFsub_of_lt_nonneg (x y : spec_float) :
  valid_binary x = true -> valid_binary y = true ->
  SFltb x y = true ->
  sf_nonneg (SFsub prec emax y x).
Proof.
  unfold SFltb.
  destruct x as [sx|sx| |sx mx ex], y as [sy|sy| |sy my ey]; simpl;
    intros Hx Hy Hlt; try discriminate; try exact I;
    try (destruct sx; try discriminate; exact I);
    try (destruct sy; try discriminate; exact I);
    try (destruct sx, sy; try discriminate; exact I).
  apply sf_signed_nonneg, binary_normalize_signed.
  rewrite !shl_align_fst by lia.
  set (A := Z.pos mx * 2 ^ (ex - Z.min ey ex)).
  set (B := Z.pos my * 2 ^ (ey - Z.min ey ex)).
  assert (HA : 0 < A) by (apply Z.mul_pos_pos; [lia|apply Z.pow_pos_nonneg; lia]).
  assert (HB : 0 < B) by (apply Z.mul_pos_pos; [lia|apply Z.pow_pos_nonneg; lia]).
  destruct sx, sy; simpl; try discriminate; try lia.
  - (* both negative: the magnitude of [x] is the larger one *)
    assert (HBA : B < A); [|lia].
    subst A B. destruct (ex ?= ey) eqn:Hc; try discriminate.
    + apply Z.compare_eq in Hc. subst ey.
      rewrite Z.min_id, Z.sub_diag, Z.pow_0_r, !Z.mul_1_r.
      destruct (Pos.compare_cont Eq mx my) eqn:Hm; try discriminate.
      change (Pos.compare_cont Eq mx my) with (Pos.compare mx my) in Hm.
      apply Pos.compare_gt_iff in Hm. apply Pos2Z.pos_lt_pos. exact Hm.
    + apply Z.compare_gt_iff in Hc.
      rewrite Z.min_l by lia. rewrite Z.sub_diag, Z.pow_0_r, Z.mul_1_r.
      exact (canonical_exponent_order my mx ey ex Hy Hx Hc).
  - (* both positive *)
    assert (HAB : A < B); [|lia].
    subst A B. destruct (ex ?= ey) eqn:Hc; try discriminate.
    + apply Z.compare_eq in Hc. subst ey.
      rewrite Z.min_id, Z.sub_diag, Z.pow_0_r, !Z.mul_1_r.
      destruct (Pos.compare_cont Eq mx my) eqn:Hm; try discriminate.
      change (Pos.compare_cont Eq mx my) with (Pos.compare mx my) in Hm.
      apply Pos.compare_lt_iff in Hm. apply Pos2Z.pos_lt_pos. exact Hm.
    + change (ex < ey) in Hc.
      rewrite Z.min_r by lia. rewrite Z.sub_diag, Z.pow_0_r, Z.mul_1_r.
      exact (canonical_exponent_order mx my ex ey Hx Hy Hc).
Qed.

Lemma fexp_ge_emin (e : Z) : -1074 <= fexp prec emax e.
Proof. unfold fexp, SpecFloat.emin, prec, emax. lia. Qed.

Lemma fexp_mono (a b : Z) : a <= b -> fexp prec emax a <= fexp prec emax b.
Proof. unfold fexp, SpecFloat.emin, prec, emax. lia. Qed.

(** When [fexp] lies above some exponent already reachable, it is on its
    linear part. *)
Lemma fexp_linear (a lo : Z) :
  -1074 <= lo -> lo < fexp prec emax a -> fexp prec emax a = a - 53.
Proof. unfold fexp, SpecFloat.emin, prec, emax. lia. Qed.

(** Dropping [d - 53] low bits of a [d]-digit number leaves at least 1. *)
Lemma div_by_excess_digits (p : positive) :
  0 <= Z.pos (digits2_pos p) - 53 ->
  1 <= Z.pos p / 2 ^ (Z.pos (digits2_pos p) - 53).
Proof.
  intros Hpos. destruct (digits2_bounds p) as [Hl _].
  apply Z.div_le_lower_bound; [apply Z.pow_pos_nonneg; lia|].
  assert (2 ^ (Z.pos (digits2_pos p) - 53) <= 2 ^ (Z.pos (digits2_pos p) - 1))
    by (apply Z.pow_le_mono_r; lia).
  lia.
Qed.

(** Rounding a value that is at least a representable positive number does
    not go below that number. *)
Lemma binary_round_aux_lower (mb mx : positive) (eb ex : Z) (l : location) :
  bounded prec emax mb eb = true ->
  ex <= eb ->
  Z.pos mb * 2 ^ (eb - ex) <= Z.pos mx ->
  ex <= fexp prec emax (Z.pos (digits2_pos mx) + ex) ->
  SFleb (S754_finite false mb eb)
        (binary_round_aux prec emax false (Z.pos mx) ex l) = true.
Proof.
  intros Hb Hex Hval Hn1.
  assert (Hcan : fexp prec emax (Z.pos (digits2_pos mb) + eb) = eb).
  { unfold bounded, canonical_mantissa in Hb.
    apply andb_true_iff in Hb as [Hb _]. now apply Z.eqb_eq in Hb. }
  assert (Hemin : -1074 <= eb) by (rewrite <- Hcan; apply fexp_ge_emin).
  set (db := Z.pos (digits2_pos mb)) in *.
  set (d := Z.pos (digits2_pos mx)) in *.
  set (F1 := fexp prec emax (d + ex)) in *.
  (* the digits of the value dominate those of the bound *)
  assert (K1 : db + eb <= d + ex).
  { destruct (digits2_bounds mb) as [Hl _]. fold db in Hl.
    assert (Hpow : 2 ^ (db - 1 + (eb - ex)) <= Z.pos mx).
    { rewrite Z.pow_add_r by (unfold db; lia).
      assert (0 < 2 ^ (eb - ex)) by (apply Z.pow_pos_nonneg; lia). nia. }
    apply digits2_lower in Hpow. fold d in Hpow. lia. }
  assert (K2 : eb <= F1) by (rewrite <- Hcan; apply fexp_mono; exact K1).
  unfold binary_round_aux.
  pose proof (shr_fexp_spec (Z.pos mx) ex l) as Hs1.
  cbv zeta in Hs1. specialize (Hs1 ltac:(lia)).
  change (Zdigits2 (Z.pos mx)) with d in Hs1. fold F1 in Hs1.
  rewrite Z.max_r in Hs1 by lia.
  destruct (shr_fexp prec emax (Z.pos mx) ex l) as [mrs1 e1].
  cbn [fst snd] in Hs1. destruct Hs1 as [Hm1 He1].
  replace (ex + (F1 - ex)) with F1 in He1 by lia. subst e1.
  (* first shift *)
  assert (K3 : 1 <= shr_m mrs1 /\ (F1 = eb -> Z.pos mb <= shr_m mrs1)).
  { rewrite Hm1. split.
    - destruct (Z.eq_dec F1 eb) as [Heq|Hne].
      + rewrite Heq. 
        assert (Z.pos mb <= Z.pos mx / 2 ^ (eb - ex)).
        { apply Z.div_le_lower_bound; [apply Z.pow_pos_nonneg; lia|lia]. }
        lia.
      + assert (HF : F1 = d + ex - 53) by (apply (fexp_linear _ eb); [lia|fold F1; lia]).
        rewrite HF. replace (d + ex - 53 - ex) with (d - 53) by lia.
        apply div_by_excess_digits. fold d. lia.
    - intros Heq. rewrite Heq.
      apply Z.div_le_lower_bound; [apply Z.pow_pos_nonneg; lia|lia]. }
  destruct K3 as [K3a K3b].
  pose proof (round_nearest_even_bounds (shr_m mrs1) (loc_of_shr_record mrs1)) as Hr.
  set (mr := round_nearest_even (shr_m mrs1) (loc_of_shr_record mrs1)) in *.
  (* second shift *)
  pose proof (shr_fexp_spec mr F1 loc_Exact) as Hs2.
  cbv zeta in Hs2. specialize (Hs2 ltac:(lia)).
  destruct (shr_fexp prec emax mr F1 loc_Exact) as [mrs2 e2].
  cbn [fst snd] in Hs2. destruct Hs2 as [Hm2 He2].
  assert (K4 : 1 <= shr_m mrs2 /\ eb <= e2 /\ (e2 = eb -> Z.pos mb <= shr_m mrs2)).
  { destruct mr as [|pr|pr] eqn:Hmr; try lia.
    change (Zdigits2 (Z.pos pr)) with (Z.pos (digits2_pos pr)) in *.
    set (dr := Z.pos (digits2_pos pr)) in *.
    destruct (Z_le_gt_dec (fexp prec emax (dr + F1) - F1) 0) as [Hle|Hgt].
    - rewrite Z.max_l in * by lia. rewrite Z.pow_0_r, Z.div_1_r in Hm2.
      rewrite Hm2. replace e2 with F1 by lia.
      split; [lia|]. split; [lia|]. intros Heq. specialize (K3b Heq). lia.
    - rewrite Z.max_r in * by lia.
      assert (HF : fexp prec emax (dr + F1) = dr + F1 - 53)
        by (apply (fexp_linear _ F1); lia).
      rewrite HF in Hm2, He2.
      replace (dr + F1 - 53 - F1) with (dr - 53) in Hm2, He2 by lia.
      rewrite Hm2. split; [apply div_by_excess_digits; fold dr; lia|]. 
      split; [lia|]. intros Heq. lia. }
  destruct K4 as [K4a [K4b K4c]].
  destruct (shr_m mrs2) as [|p|p]; try lia.
  destruct (e2 <=? emax - prec); [|reflexivity].
  unfold SFleb, SFcompare.
  destruct (Z.compare_spec eb e2) as [Heq|Hlt|Hgt]; [|reflexivity|lia].
  change (Pos.compare_cont Eq mb p) with (Pos.compare mb p).
  specialize (K4c (eq_sym Heq)).
  destruct (Pos.compare_spec mb p) as [Hpe|Hpl|Hpg]; try reflexivity.
  apply Pos2Z.pos_lt_pos in Hpg. lia.
Qed.

Local Close Scope Z_scope.

(** ** Binary64 arithmetic: the primitive operations *)

Lemma is_nan_spec (x : float) :
  is_nan x = match Prim2SF x with S754_nan => true | _ => false end.
Proof.
  unfold is_nan. rewrite FloatAxioms.eqb_spec. unfold SFeqb.
  destruct (Prim2SF x) as [s|s| |s m e] eqn:E; try reflexivity.
  - destruct s; reflexivity.
  - rewrite SFcompare_refl by discriminate. reflexivity.
Qed.

Lemma float_lt_sub_nonneg (a b : float) :
  (a <? b)%float = true -> sf_nonneg (Prim2SF (b - a)).
Proof.
  rewrite FloatAxioms.ltb_spec, FloatAxioms.sub_spec. intros H.
  apply SFsub_of_lt_nonneg; [apply Prim2SF_valid|apply Prim2SF_valid|exact H].
Qed.

(** [Math.max(0, -d)] is [0] when [d] is not negative. *)
Lemma Math_max_zero_opp (d : float) :
  sf_nonneg (Prim2SF d) -> Math.max 0 (- d) = 0%float.
Proof.
  intros Hd. unfold Math.max.
  assert (Hnan : is_nan (- d) = false).
  { rewrite is_nan_spec, FloatAxioms.opp_spec. destruct (Prim2SF d) as [s|s| |s m e]; simpl in *; tauto. }
  assert (Hlt : (0 <? - d)%float = false).
  { rewrite FloatAxioms.ltb_spec, FloatAxioms.opp_spec. change (Prim2SF 0) with (S754_zero false).
    destruct (Prim2SF d) as [s|s| |s m e]; simpl in *; try tauto;
      destruct s; simpl in *; tauto. }
  rewrite Hnan, Hlt. change (is_nan 0) with false. change (get_sign 0) with false.
  simpl. destruct (- d <? 0)%float; reflexivity.
Qed.

(** A positive number is finite and positive, or [+infinity]. *)
Lemma float_positive_cases (a : float) :
  (0 <? a)%float = true ->
  Prim2SF a = S754_infinity false \/ exists m e, Prim2SF a = S754_finite false m e.
Proof.
  rewrite FloatAxioms.ltb_spec. change (Prim2SF 0) with (S754_zero false).
  unfold SFltb. destruct (Prim2SF a) as [s|s| |s m e]; simpl; try discriminate.
  - destruct s; [discriminate|]. auto.
  - destruct s; [discriminate|]. eauto.
Qed.

Lemma float_positive_not_nan (a : float) : (0 <? a)%float = true -> is_nan a = false.
Proof.
  intros H. rewrite is_nan_spec.
  destruct (float_positive_cases a H) as [->|(m & e & ->)]; reflexivity.
Qed.

(** The product of two positive numbers is not NaN. *)
Lemma float_mul_positive_not_nan (a c : float) :
  (0 <? a)%float = true -> (0 <? c)%float = true -> is_nan (a * c) = false.
Proof.
  intros Ha Hc. rewrite is_nan_spec, FloatAxioms.mul_spec. unfold SF64mul.
  destruct (float_positive_cases a Ha) as [->|(ma & ea & ->)];
    destruct (float_positive_cases c Hc) as [->|(mc & ec & ->)]; try reflexivity.
  simpl.
  pose proof (binary_round_aux_signed false (Z.pos (ma * mc)) (ea + ec) loc_Exact) as Hs.
  specialize (Hs ltac:(lia)).
  destruct (binary_round_aux prec emax false (Z.pos (ma * mc)) (ea + ec) loc_Exact);
    simpl in Hs; tauto.
Qed.

(** A positive number is at most its triple. *)
Lemma float_le_triple (a : float) :
  (0 <? a)%float = true -> (a <=? a * 3)%float = true.
Proof.
  intros Ha. rewrite FloatAxioms.leb_spec, FloatAxioms.mul_spec. unfold SF64mul.
  pose proof (Prim2SF_valid a) as Hv.
  change (Prim2SF 3) with (S754_finite false 6755399441055744 (-51)).
  destruct (float_positive_cases a Ha) as [->|(m & e & Hm)]; [reflexivity|].
  rewrite Hm in *. simpl in Hv. cbn [SFmul xorb].
  apply binary_round_aux_lower.
  - exact Hv.
  - lia.
  - replace (e - (e + -51))%Z with 51%Z by lia.
    change (2 ^ 51)%Z with 2251799813685248%Z. lia.
  - assert (Hd : (52 < Z.pos (digits2_pos (m * 6755399441055744)))%Z).
    { apply digits2_lower. change (2 ^ 52)%Z with 4503599627370496%Z. lia. }
    unfold fexp, SpecFloat.emin, prec, emax. lia.
Qed.

Lemma float_leb_refl (a : float) : is_nan a = false -> (a <=? a)%float = true.
Proof.
  rewrite is_nan_spec, FloatAxioms.leb_spec. unfold SFleb. intros H.
  rewrite SFcompare_refl; [reflexivity|].
  destruct (Prim2SF a); congruence.
Qed.

(** The three ways two numbers can compare. *)
Lemma float_compare_cases (a b : float) :
  is_nan a = false -> is_nan b = false ->
  ((a <? b)%float = true /\ (b <? a)%float = false
   /\ (a <=? b)%float = true)
  \/ ((a <? b)%float = false /\ (b <? a)%float = true
      /\ (b <=? a)%float = true)
  \/ ((a <? b)%float = false /\ (b <? a)%float = false
      /\ (a <=? b)%float = true /\ (b <=? a)%float = true).
Proof.
  rewrite !is_nan_spec, !FloatAxioms.ltb_spec, !FloatAxioms.leb_spec.
  unfold SFltb, SFleb. intros Ha Hb.
  rewrite (SFcompare_antisym (Prim2SF a) (Prim2SF b)).
  destruct (SFcompare_not_nan (Prim2SF a) (Prim2SF b)) as [c Hc].
  - destruct (Prim2SF a); congruence.
  - destruct (Prim2SF b); congruence.
  - rewrite Hc. destruct c; simpl; tauto.
Qed.

Lemma Math_min_spec (a b : float) :
  is_nan a = false -> is_nan b = false ->
  is_nan (Math.min a b) = false /\ (Math.min a b <=? b)%float = true.
Proof.
  intros Ha Hb. unfold Math.min. rewrite Ha, Hb. simpl.
  destruct (float_compare_cases a b Ha Hb)
    as [(H1 & H2 & H3)|[(H1 & H2 & H3)|(H1 & H2 & H3 & H4)]];
    rewrite H1, ?H2.
  - auto.
  - split; [exact Hb|apply float_leb_refl; exact Hb].
  - destruct (get_sign a); [auto|].
    split; [exact Hb|apply float_leb_refl; exact Hb].
Qed.

Lemma Math_max_spec (a b : float) :
  is_nan a = false -> is_nan b = false ->
  (a <=? Math.max a b)%float = true
  /\ forall hi, (a <=? hi)%float = true -> (b <=? hi)%float = true ->
                (Math.max a b <=? hi)%float = true.
Proof.
  intros Ha Hb. unfold Math.max. rewrite Ha, Hb. simpl.
  destruct (float_compare_cases a b Ha Hb)
    as [(H1 & H2 & H3)|[(H1 & H2 & H3)|(H1 & H2 & H3 & H4)]];
    rewrite H1, ?H2.
  - auto.
  - split; [apply float_leb_refl; exact Ha|auto].
  - destruct (get_sign a); [auto|].
    split; [apply float_leb_refl; exact Ha|auto].
Qed.

Lemma is_nan_opp (x : float) : is_nan (- x) = is_nan x.
Proof.
  rewrite !is_nan_spec, FloatAxioms.opp_spec. destruct (Prim2SF x); reflexivity.
Qed.

Lemma of_uint63_not_nan (n : int) : is_nan (of_uint63 n) = false.
Proof.
  rewrite is_nan_spec, of_uint63_spec.
  pose proof (binary_normalize_signed (Uint63.to_Z n) 0) as Hs.
  specialize (Hs ltac:(pose proof (Uint63.to_Z_bounded n); lia)).
  destruct (binary_normalize prec emax (Uint63.to_Z n) 0 false); simpl in Hs; tauto.
Qed.

(** [Math.round] does not produce NaN from a number. *)
Lemma Math_round_not_nan (x : float) : is_nan x = false -> is_nan (Math.round x) = false.
Proof.
  intros Hx. unfold Math.round, Math.of_Z.
  destruct (Prim2SF x) as [s|s| |s m e]; try exact Hx.
  destruct (0 <=? e)%Z; [exact Hx|].
  cbv zeta.
  destruct (_ =? 0)%Z.
  - destruct s; reflexivity.
  - destruct (_ <? 0)%Z.
    + rewrite is_nan_opp. apply of_uint63_not_nan.
    + apply of_uint63_not_nan.
Qed.

(** ** Index alignment of the indicator arrays *)

Lemma calcMA_length (values : list float) (period : nat) :
  length (calcMA values period) = length values.
Proof. unfold calcMA. now rewrite length_map, length_seq. Qed.

Lemma calcEMA_from_length (k prev : float) (values : list float) :
  length (calcEMA_from k prev values) = length values.
Proof.
  revert prev. induction values as [|v rest IH]; intros prev; simpl; [reflexivity|].
  now rewrite IH.
Qed.

Lemma calcEMA_length (values : list float) (period : nat) :
  length (calcEMA values period) = length values.
Proof.
  unfold calcEMA. destruct values as [|v0 rest]; simpl; [reflexivity|].
  now rewrite calcEMA_from_length.
Qed.

Lemma calcRSI_loop_length p gl i avgGain avgLoss rsi :
  length (calcRSI_loop p gl i avgGain avgLoss rsi) = length rsi.
Proof.
  revert i avgGain avgLoss rsi.
  induction gl as [|[g l] rest IH]; intros i avgGain avgLoss rsi; simpl; [reflexivity|].
  now rewrite IH, length_insert.
Qed.

Lemma calcRSI_length (values : list float) (period : nat) :
  length (calcRSI values period) = length values.
Proof.
  unfold calcRSI. destruct (length values <=? period).
  - apply length_replicate.
  - now rewrite calcRSI_loop_length, length_insert, length_replicate.
Qed.

Lemma calcBollinger_length (values : list float) (period : nat) (mult : float) :
  length (calcBollinger values period mult) = length values.
Proof. unfold calcBollinger. now rewrite length_map, length_seq. Qed.

Lemma calcMACD_length (values : list float) (fast slow signal : nat) :
  length (macdLine (calcMACD values fast slow signal)) = length values
  /\ length (signalLine (calcMACD values fast slow signal)) = length values
  /\ length (histogram (calcMACD values fast slow signal)) = length values.
Proof.
  unfold calcMACD; simpl.
  rewrite calcEMA_length, !length_imap, calcEMA_length. auto.
Qed.

Lemma trueRanges_length (candles : list Candle) :
  length (trueRanges candles) = length candles - 1.
Proof.
  unfold trueRanges. rewrite length_zip_with, length_tl. lia.
Qed.

Lemma calcATR_loop_length p tr last :
  length (calcATR_loop p tr last) = length tr.
Proof.
  revert last. induction tr as [|t rest IH]; intros last; simpl; [reflexivity|].
  now rewrite IH.
Qed.

(** The array returned by [calcATR]: aligned when there is too little
    history, and [period - 1] slots short of the input otherwise. *)
Lemma calcATR_length (candles : list Candle) (period : nat) :
  length (calcATR candles period) =
  if length candles <? period + 1 then length candles
  else length candles + 1 - period.
Proof.
  unfold calcATR. destruct (Nat.ltb_spec (length candles) (period + 1)) as [H|H].
  - apply length_replicate.
  - simpl. rewrite calcATR_loop_length, length_drop, trueRanges_length. lia.
Qed.

(** ** The decision cycle and the globals *)

(** Decide every conditional of the goal. *)
Ltac split_conditionals :=
  repeat match goal with
         | |- context [if ?b then _ else _] => destruct b
         end.

Lemma detectMarketRegime_frame (candles : list Candle) (g : Globals) :
  snd (detectMarketRegime candles g) = g.
Proof.
  unfold detectMarketRegime.
  destruct (length candles <? 50); [reflexivity|].
  cbv zeta. split_conditionals; reflexivity.
Qed.

Lemma detectMarketRegime_state_independent (candles : list Candle) (g1 g2 : Globals) :
  fst (detectMarketRegime candles g1) = fst (detectMarketRegime candles g2).
Proof.
  unfold detectMarketRegime.
  destruct (length candles <? 50); [reflexivity|].
  cbv zeta. split_conditionals; reflexivity.
Qed.

Lemma engine_insufficient (candles : option (list Candle)) (g : Globals) :
  fewerThan50 candles = true ->
  advancedDecisionEngine candles g = (holdOnly "Insufficient data", g).
Proof.
  destruct candles as [c|]; simpl; intros H.
  - now rewrite H.
  - reflexivity.
Qed.

Lemma is_null_or_default (v : JsNum) (d : float) : is_null (or_default v d) = false.
Proof.
  unfold or_default. destruct (truthy v) eqn:Hv; [|reflexivity].
  destruct v; simpl in *; congruence.
Qed.

Lemma calcMA_lookup (values : list float) (period i : nat) :
  i < length values ->
  calcMA values period !! i =
  Some (if S i <? period then None
        else Some (sum (slice (S i - period) (S i) values) / Number_of_nat period)%float).
Proof.
  intros Hi. unfold calcMA.
  change (map ?f ?l) with (f <$> l).
  rewrite list_lookup_fmap, lookup_seq_lt by assumption. reflexivity.
Qed.

(** Past the warm-up the moving average is a number. *)
Lemma calcMA_ready (values : list float) (period i : nat) :
  i < length values -> period <= S i ->
  is_null (at_index (calcMA values period) i) = false.
Proof.
  intros Hi Hp. unfold at_index. rewrite calcMA_lookup by assumption.
  destruct (Nat.ltb_spec (S i) period); [lia|reflexivity].
Qed.

(** Run the monadic steps of a cycle up to the readiness guard: the regime
    is detected and stored, the weights are updated, and the reads of the
    globals are resolved. *)
Ltac run_cycle candles g :=
  let r := fresh "r" in
  let g' := fresh "g'" in
  let Hd := fresh "Hd" in
  let Hf := fresh "Hf" in
  pose proof (detectMarketRegime_frame candles g) as Hf;
  destruct (detectMarketRegime candles g) as [r g'] eqn:Hd;
  simpl in Hf; subst g';
  cbv beta iota zeta delta [bind gets ret set_marketRegime set_indicatorWeights
                            updateIndicatorWeights marketRegime indicatorWeights
                            tickBuffer tradeHistory granularity];
  rewrite Hd;
  cbv beta iota zeta delta [bind gets ret set_marketRegime set_indicatorWeights
                            updateIndicatorWeights marketRegime indicatorWeights
                            tickBuffer tradeHistory granularity fst snd];
  destruct g.

Section DecisionCycle.

Variable candles : list Candle.
Variable g : Globals.
Hypothesis enough : (length candles <? 50) = false.

Let closes := map close candles.
Let latest := length closes - 1.

Lemma latest_in_range : latest < length closes /\ 14 <= S latest.
Proof.
  unfold latest, closes. rewrite length_map.
  apply Nat.ltb_ge in enough. lia.
Qed.

(** Every return past the length guard leaves the same globals. *)
Lemma engine_state :
  snd (advancedDecisionEngine (Some candles) g) = afterCycle candles g.
Proof.
  unfold advancedDecisionEngine, afterCycle. rewrite enough.
  run_cycle candles g.
  repeat match goal with
         | |- context [if ?b then _ else _] => destruct b
         | |- context [selectAction ?a ?b ?c ?d] => destruct (selectAction a b c d)
         end; reflexivity.
Qed.

(** The readiness guard fires exactly when the upper band is falsy. *)
Lemma engine_not_ready :
  truthy (upper (band_at (calcBollinger closes 20 2) latest)) = false ->
  fst (advancedDecisionEngine (Some candles) g) = holdOnly "Indicators not ready".
Proof.
  intros Hbb. unfold advancedDecisionEngine. rewrite enough.
  unfold latest, closes in *.
  run_cycle candles g.
  rewrite Hbb. simpl. rewrite orb_true_r. reflexivity.
Qed.

Lemma engine_low_volatility :
  truthy (upper (band_at (calcBollinger closes 20 2) latest)) = true ->
  (calcVolatility closes 20 <? 0.002)%float = true ->
  fst (advancedDecisionEngine (Some candles) g) =
  Decision.mk HOLD (Literal "Extremely low volatility - no edge") 0 None
    (Some (lowVolatilitySnapshot candles (tickBuffer g))) None None.
Proof.
  intros Hbb Hvol. unfold advancedDecisionEngine. rewrite enough.
  destruct latest_in_range as [Hin Hwarm].
  unfold latest, closes in *.
  run_cycle candles g.
  rewrite is_null_or_default, Hbb, Hvol, calcMA_ready by assumption.
  reflexivity.
Qed.

Lemma engine_full :
  truthy (upper (band_at (calcBollinger closes 20 2) latest)) = true ->
  (calcVolatility closes 20 <? 0.002)%float = false ->
  fst (advancedDecisionEngine (Some candles) g) = fullDecision candles (afterCycle candles g).
Proof.
  intros Hbb Hvol. unfold advancedDecisionEngine, fullDecision, afterCycle. rewrite enough.
  destruct latest_in_range as [Hin Hwarm].
  unfold latest, closes in *.
  run_cycle candles g.
  rewrite is_null_or_default, Hbb, Hvol, calcMA_ready by assumption.
  simpl negb. cbv iota. unfold cycleSignals, lowVolatilitySnapshot. simpl.
  match goal with
  | |- context [selectAction ?a ?b ?c ?d] => destruct (selectAction a b c d)
  end. reflexivity.
Qed.

End DecisionCycle.

(** ** RSI on a rising series *)

Lemma losses_cons2 (a b : float) (rest : list float) :
  losses (a :: b :: rest) = Math.max 0 (- (b - a)) :: losses (b :: rest).
Proof. reflexivity. Qed.

(** On a strictly increasing series every loss is [0]. *)
Lemma losses_of_increasing (values : list float) :
  strictly_increasing values = true ->
  losses values = replicate (length values - 1) 0%float.
Proof.
  induction values as [|a rest IH]; [reflexivity|].
  destruct rest as [|b rest]; [reflexivity|].
  intros H. apply andb_true_iff in H as [Hab Hrest].
  rewrite losses_cons2, (IH Hrest).
  rewrite Math_max_zero_opp by (apply float_lt_sub_nonneg; exact Hab).
  simpl. rewrite Nat.sub_0_r. reflexivity.
Qed.

Lemma gains_length (values : list float) : length (gains values) = length values - 1.
Proof. unfold gains, diffs. rewrite length_map, length_zip_with, length_tl. lia. Qed.

Lemma zip_zero_losses (gs : list float) (k : nat) :
  Forall (fun gl : float * float => snd gl = 0%float) (zip gs (replicate k 0%float)).
Proof.
  revert k. induction gs as [|g gs IH]; intros k; [constructor|].
  destruct k as [|k]; [constructor|].
  simpl. constructor; [reflexivity|apply IH].
Qed.

(** The smoothing loop leaves the slots below its start index alone. *)
Lemma calcRSI_loop_lookup_before p gl i avgGain avgLoss rsi (j : nat) :
  j < i ->
  calcRSI_loop p gl i avgGain avgLoss rsi !! j = rsi !! j.
Proof.
  revert i avgGain avgLoss rsi.
  induction gl as [|[g l] rest IH]; intros i avgGain avgLoss rsi Hj; simpl; [reflexivity|].
  rewrite IH by lia. apply list_lookup_insert_ne. lia.
Qed.

(** With period 14, an average loss of [0] and no further loss, every slot
    the loop writes holds 100. *)
Lemma calcRSI_loop_saturated gl i avgGain rsi (j : nat) :
  Forall (fun gl : float * float => snd gl = 0%float) gl ->
  i <= j < i + length gl ->
  j < length rsi ->
  calcRSI_loop (Number_of_nat 14) gl i avgGain 0 rsi !! j = Some (Some 100%float).
Proof.
  revert i avgGain rsi.
  induction gl as [|[g l] rest IH]; intros i avgGain rsi Hall Hj Hlen; simpl in *; [lia|].
  inversion Hall as [|? ? Hl Hrest]; subst. simpl in Hl. subst l.
  change ((0 * (Number_of_nat 14 - 1) + 0) / Number_of_nat 14)%float with 0%float.
  destruct (decide (j = i)) as [->|Hne].
  - rewrite calcRSI_loop_lookup_before by lia.
    rewrite list_lookup_insert_eq by lia. reflexivity.
  - apply IH; [exact Hrest|lia|rewrite length_insert; lia].
Qed.

(** ** Duration optimisation *)

(** Whatever the regime, pattern, volatility and confidence, the duration
    multiplier is a positive number and the capped risk score is at most 1. *)
Lemma duration_adjustments (confidence volatility : float) (pattern : Pattern.t)
    (ty : RegimeType) :
  let mr := confidenceAdjustment confidence
              (volatilityAdjustment volatility
                 (patternAdjustment pattern (regimeAdjustment ty))) in
  (0 <? fst mr)%float = true /\ (Math.min (snd mr) 1 <=? 1)%float = true.
Proof.
  unfold confidenceAdjustment, volatilityAdjustment, patternAdjustment, regimeAdjustment.
  destruct ty;
    destruct (0.8 <? Pattern.strength pattern)%float;
    destruct (0.015 <? volatility)%float; try destruct (volatility <? 0.005)%float;
    destruct (0.8 <? confidence)%float; try destruct (confidence <? 0.6)%float;
    vm_compute; split; reflexivity.
Qed.

(** Clamping a number between a lower bound and an upper bound above it. *)
Lemma clamp_between (lo x hi : float) :
  is_nan lo = false -> is_nan x = false -> is_nan hi = false ->
  (lo <=? hi)%float = true ->
  (lo <=? Math.max lo (Math.min x hi))%float = true
  /\ (Math.max lo (Math.min x hi) <=? hi)%float = true.
Proof.
  intros Hlo Hx Hhi Hle.
  destruct (Math_min_spec x hi Hx Hhi) as [Hmin_nan Hmin_le].
  destruct (Math_max_spec lo (Math.min x hi) Hlo Hmin_nan) as [Hmax_ge Hmax_le].
  split; [exact Hmax_ge|apply Hmax_le; assumption].
Qed.


(** ** Properties of the engine *)

(** C1.  [calcMA], [calcEMA], [calcRSI], [calcBollinger] and [calcMACD]
    return arrays as long as their input, but [calcATR] does not: once there
    are more than [period] candles it returns [length + 1 - period] slots.
    On fifteen candles with period 14 the result has two slots, and on fifty
    candles the engine's read at the latest index finds nothing. *)
Theorem calcATR_not_index_aligned :
  (forall values period, length (calcMA values period) = length values)
  /\ (forall values period, length (calcEMA values period) = length values)
  /\ (forall values period, length (calcRSI values period) = length values)
  /\ (forall values period mult, length (calcBollinger values period mult) = length values)
  /\ (forall values fast slow signal,
        length (histogram (calcMACD values fast slow signal)) = length values)
  /\ length rising15 = 15
  /\ length (calcATR rising15 14) = 2
  /\ at_index (calcATR rising50 14) (length rising50 - 1) = Undefined.
Proof.
  split; [exact calcMA_length|].
  split; [exact calcEMA_length|].
  split; [exact calcRSI_length|].
  split; [exact calcBollinger_length|].
  split; [intros; apply calcMACD_length|].
  vm_compute. repeat split.
Qed.

(** C2.  Under a table regime the [volume] weight is not reset, so the
    win-rate scaling compounds on the value left by the previous cycle: two
    updates with the same regime and the same win rate 0.7 leave [volume] at
    1.1 and then at 1.1 * 1.1, while the four table weights repeat. *)
Theorem volume_weight_carries_over :
  let g1 := snd (updateIndicatorWeights strongUptrend 0.7 freshGlobals) in
  let g2 := snd (updateIndicatorWeights strongUptrend 0.7 g1) in
  Weights.volume (indicatorWeights g1) = 1.1%float
  /\ Weights.volume (indicatorWeights g2) = 1.2100000000000002%float
  /\ Weights.ma (indicatorWeights g2) = Weights.ma (indicatorWeights g1)
  /\ Weights.rsi (indicatorWeights g2) = Weights.rsi (indicatorWeights g1)
  /\ Weights.bb (indicatorWeights g2) = Weights.bb (indicatorWeights g1)
  /\ Weights.momentum (indicatorWeights g2) = Weights.momentum (indicatorWeights g1).
Proof. vm_compute. repeat split. Qed.

(** The four weights of the regime table do not depend on the weights left
    by earlier cycles. *)
Lemma table_weights_determined (regime : Regime.t) (winRate : float) (g1 g2 : Globals) :
  let w1 := indicatorWeights (snd (updateIndicatorWeights regime winRate g1)) in
  let w2 := indicatorWeights (snd (updateIndicatorWeights regime winRate g2)) in
  Weights.ma w1 = Weights.ma w2 /\ Weights.rsi w1 = Weights.rsi w2
  /\ Weights.bb w1 = Weights.bb w2 /\ Weights.momentum w1 = Weights.momentum w2.
Proof.
  destruct g1, g2. unfold updateIndicatorWeights, winRateScaling.
  cbv beta iota zeta delta [bind gets ret set_indicatorWeights indicatorWeights
                            marketRegime tickBuffer tradeHistory granularity fst snd].
  destruct (0.65 <? winRate)%float; [|destruct (winRate <? 0.45)%float];
    destruct (Regime.type regime); simpl; auto.
Qed.

(** C3.  On fifty falling closes the RSI at the latest index is 0, which is
    below 30, yet the RSI term of the composite signal is 0 and not the RSI
    weight 0.8: the engine reads [rsi[i] || 50], and 0 is falsy. *)
Theorem rsi_zero_contributes_nothing :
  let closes := map close falling50 in
  let d := fst (advancedDecisionEngine (Some falling50) freshGlobals) in
  let g' := snd (advancedDecisionEngine (Some falling50) freshGlobals) in
  at_index (calcRSI closes 14) (length closes - 1) = Num 0
  /\ Decision.compositeSignal d = Some (compositeOf (cycleSignals falling50 g'))
  /\ Signals.rsiSignal (cycleSignals falling50 g') = 0%float
  /\ Weights.rsi (indicatorWeights g') = 0.8%float.
Proof. vm_compute. repeat split. Qed.

(** C4.  On fifty candles priced at 0 the raw volatility is 0, below 0.002,
    and the moving average, the RSI and the upper Bollinger band at the
    latest index are all numbers; yet the engine returns HOLD with the
    reason "Indicators not ready" and no snapshot, where the low-volatility
    HOLD with its snapshot is due: the readiness guard tests
    [!bbNow.upper], and an upper band of 0 is falsy. *)
Theorem zero_prices_stop_at_readiness_guard :
  let closes := map close zero50 in
  let i := length closes - 1 in
  let d := fst (advancedDecisionEngine (Some zero50) freshGlobals) in
  length zero50 = 50
  /\ (calcVolatility closes 20 <? 0.002)%float = true
  /\ at_index (calcMA closes 14) i = Num 0
  /\ at_index (calcRSI closes 14) i = Num 100
  /\ upper (band_at (calcBollinger closes 20 2) i) = Num 0
  /\ d = holdOnly "Indicators not ready"
  /\ Decision.reason d <> Literal "Extremely low volatility - no edge"
  /\ Decision.indicators d = None.
Proof. vm_compute. repeat split. discriminate. Qed.

(** On fifty closes drifting down from 100 by 0.0001 the low-volatility
    HOLD is returned, and its snapshot shows what the engine has read
    rather than what the indicators computed: 50 for an RSI of 0, and no
    ATR, the array of [calcATR] being shorter than the candles. *)
Example drifting_closes_snapshot :
  let closes := map close driftingDown50 in
  let i := length closes - 1 in
  let d := fst (advancedDecisionEngine (Some driftingDown50) freshGlobals) in
  (calcVolatility closes 20 <? 0.002)%float = true
  /\ Decision.action d = HOLD
  /\ Decision.reason d = Literal "Extremely low volatility - no edge"
  /\ Decision.confidence d = 0%float
  /\ at_index (calcRSI closes 14) i = Num 0
  /\ option_map Indicators.rsiNow (Decision.indicators d) = Some (Num 50)
  /\ option_map Indicators.atr (Decision.indicators d) = Some Undefined.
Proof. vm_compute. repeat split. Qed.

(** C5.  With no candle array, or fewer than 50 candles, the engine returns
    exactly the three-field HOLD "Insufficient data" with confidence 0, and
    nothing else has happened: the globals are as they were. *)
Theorem insufficient_data_hold (candles : option (list Candle)) (g : Globals) :
  fewerThan50 candles = true ->
  advancedDecisionEngine candles g =
  (Decision.mk HOLD (Literal "Insufficient data") 0 None None None None, g).
Proof. apply engine_insufficient. Qed.

Lemma insufficient_data_hold_witness :
  advancedDecisionEngine (Some rising15) freshGlobals =
  (Decision.mk HOLD (Literal "Insufficient data") 0 None None None None, freshGlobals)
  /\ advancedDecisionEngine None freshGlobals =
  (Decision.mk HOLD (Literal "Insufficient data") 0 None None None None, freshGlobals).
Proof.
  split.
  - apply (insufficient_data_hold (Some rising15) freshGlobals). reflexivity.
  - apply (insufficient_data_hold None freshGlobals). reflexivity.
Defined.

(** C6.  For every positive base granularity (every positive integer in
    particular) and every decision, regime, volatility and pattern, the
    planned duration lies between the base and three times the base, and the
    risk score is at most 1. *)
Theorem duration_within_bounds (decision : Decision.t) (regime : Regime.t)
    (volatility : float) (pattern : Pattern.t) (g : Globals) :
  (0 <? granularity g)%float = true ->
  let plan := fst (optimizeTradeDuration decision regime volatility pattern g) in
  (granularity g <=? DurationPlan.duration plan)%float = true
  /\ (DurationPlan.duration plan <=? granularity g * 3)%float = true
  /\ (DurationPlan.riskScore plan <=? 1)%float = true.
Proof.
  intros Hbase. unfold optimizeTradeDuration.
  cbv beta iota zeta delta [bind gets ret].
  pose proof (duration_adjustments (Decision.confidence decision) volatility pattern
                (Regime.type regime)) as Hadj.
  cbv zeta in Hadj.
  destruct (confidenceAdjustment _ _) as [m r]. cbn [fst snd] in *.
  destruct Hadj as [Hm Hr].
  cbn [DurationPlan.duration DurationPlan.riskScore].
  split; [|split; [|exact Hr]].
  - apply clamp_between.
    + apply float_positive_not_nan; exact Hbase.
    + apply Math_round_not_nan, float_mul_positive_not_nan; assumption.
    + apply float_mul_positive_not_nan; [exact Hbase|reflexivity].
    + apply float_le_triple; exact Hbase.
  - apply clamp_between.
    + apply float_positive_not_nan; exact Hbase.
    + apply Math_round_not_nan, float_mul_positive_not_nan; assumption.
    + apply float_mul_positive_not_nan; [exact Hbase|reflexivity].
    + apply float_le_triple; exact Hbase.
Qed.

Lemma duration_within_bounds_witness :
  let plan := fst (optimizeTradeDuration
                     (fst (advancedDecisionEngine (Some rising50) freshGlobals))
                     strongUptrend 0.038699874478761061 noPattern freshGlobals) in
  (granularity freshGlobals <=? DurationPlan.duration plan)%float = true
  /\ (DurationPlan.duration plan <=? granularity freshGlobals * 3)%float = true
  /\ (DurationPlan.riskScore plan <=? 1)%float = true.
Proof.
  apply (duration_within_bounds
           (fst (advancedDecisionEngine (Some rising50) freshGlobals))
           strongUptrend 0.038699874478761061 noPattern freshGlobals).
  vm_compute. reflexivity.
Defined.

(** C7.  On a strictly increasing series of at least 50 values, RSI(14) at
    the last index is 100: every difference is a gain, each loss is 0, so
    the average loss is 0 from the first window on. *)
Theorem rsi_saturates_on_rising_series (values : list float) :
  50 <= length values ->
  strictly_increasing values = true ->
  at_index (calcRSI values 14) (length values - 1) = Num 100.
Proof.
  intros Hlen Hinc. unfold at_index, calcRSI.
  destruct (Nat.leb_spec (length values) 14) as [Hle|Hgt]; [lia|].
  rewrite (losses_of_increasing values Hinc).
  unfold slice at 2. rewrite drop_0, Nat.sub_0_r, take_replicate.
  replace (14 `min` (length values - 1)) with 14 by lia.
  change (sum (replicate 14 0%float) / Number_of_nat 14)%float with 0%float.
  rewrite calcRSI_loop_saturated; [reflexivity| | |].
  - apply Forall_drop, zip_zero_losses.
  - rewrite length_drop, length_zip, gains_length, length_replicate. lia.
  - rewrite length_insert, length_replicate. lia.
Qed.

Lemma rsi_saturates_on_rising_series_witness :
  at_index (calcRSI (map close rising50) 14) (length (map close rising50) - 1) = Num 100.
Proof.
  apply (rsi_saturates_on_rising_series (map close rising50)).
  - apply Nat.leb_le. vm_compute. reflexivity.
  - vm_compute. reflexivity.
Defined.

(** C8.  A call of [detectMarketRegime] returns the same record, in every
    field, from any two program states, and leaves the state it ran in
    unchanged: the result depends on the candles alone. *)
Theorem detectMarketRegime_memoryless (candles : list Candle) (g1 g2 : Globals) :
  let r1 := fst (detectMarketRegime candles g1) in
  let r2 := fst (detectMarketRegime candles g2) in
  r1 = r2
  /\ Regime.type r1 = Regime.type r2
  /\ Regime.volatility r1 = Regime.volatility r2
  /\ Regime.trend r1 = Regime.trend r2
  /\ Regime.confidence r1 = Regime.confidence r2
  /\ Regime.atr r1 = Regime.atr r2
  /\ snd (detectMarketRegime candles g1) = g1
  /\ snd (detectMarketRegime candles g2) = g2.
Proof.
  cbv zeta.
  rewrite (detectMarketRegime_state_independent candles g1 g2).
  rewrite !detectMarketRegime_frame. repeat split.
Qed.

(** C9.  After a cycle with twenty wins on record the history is cleared.
    The next cycle sees an empty history and a win rate of 0.5, and its
    confidence carries no performance factor; but the weights it leaves are
    not the regime-table values: [volume] is still 1.1, the value scaled by
    the earlier cycle, where the table's default is 1, because the table
    branch of the regime assigns the four other weights only. *)
Theorem cleared_history_keeps_scaled_volume :
  let g := clearedAfterWins in
  let d := fst (advancedDecisionEngine (Some rising50) g) in
  let g' := snd (advancedDecisionEngine (Some rising50) g) in
  tradeHistory g = []
  /\ recentWinRate (tradeHistory g) = 0.5%float
  /\ Regime.type (marketRegime g') = STRONG_UPTREND
  /\ indicatorWeights g' = Weights.mk 1.3 0.8 0.9 1.4 1.1
  /\ Decision.weights d = Some (Weights.mk 1.3 0.8 0.9 1.4 1.1)
  /\ regimeTable STRONG_UPTREND initialWeights = Weights.mk 1.3 0.8 0.9 1.4 1
  /\ Decision.confidence d
     = Math.min (baseConfidenceOf 10.75945945945946 0.85 (identifyCandlestickPattern rising50))
                0.95.
Proof. vm_compute. repeat split. Qed.

(** What an empty stored history does give, from any globals: a win rate of
    0.5, the four table weights at their table values whatever the weights
    were, the [volume] weight as the table branch leaves it, and a
    confidence without the performance factor. *)
Lemma empty_history_has_no_scaling (candles : list Candle) (g : Globals) (c : float) :
  tradeHistory g = [] ->
  50 <= length candles ->
  Decision.compositeSignal (fst (advancedDecisionEngine (Some candles) g)) = Some c ->
  let regime := fst (detectMarketRegime candles g) in
  let table := regimeTable (Regime.type regime) initialWeights in
  let w := indicatorWeights (snd (advancedDecisionEngine (Some candles) g)) in
  recentWinRate (tradeHistory g) = 0.5%float
  /\ Weights.ma w = Weights.ma table /\ Weights.rsi w = Weights.rsi table
  /\ Weights.bb w = Weights.bb table /\ Weights.momentum w = Weights.momentum table
  /\ Weights.volume w
     = Weights.volume (regimeTable (Regime.type regime) (indicatorWeights g))
  /\ Decision.confidence (fst (advancedDecisionEngine (Some candles) g))
     = Math.min (baseConfidenceOf c (Regime.confidence regime)
                                  (identifyCandlestickPattern candles)) 0.95.
Proof.
  intros Hhist Hlen Hc regime table w.
  apply Nat.ltb_ge in Hlen.
  split; [rewrite Hhist; reflexivity|].
  assert (Hw : w = regimeTable (Regime.type regime) (indicatorWeights g)).
  { unfold w. rewrite engine_state by exact Hlen. unfold afterCycle. simpl.
    rewrite Hhist. reflexivity. }
  rewrite Hw. unfold table.
  split; [destruct (Regime.type regime); reflexivity|].
  split; [destruct (Regime.type regime); reflexivity|].
  split; [destruct (Regime.type regime); reflexivity|].
  split; [destruct (Regime.type regime); reflexivity|].
  split; [reflexivity|].
  revert Hc.
  destruct (truthy (upper (band_at (calcBollinger (map close candles) 20 2)
                                   (length (map close candles) - 1)))) eqn:Hbb.
  - destruct (calcVolatility (map close candles) 20 <? 0.002)%float eqn:Hvol.
    + rewrite engine_low_volatility by assumption. discriminate.
    + rewrite engine_full by assumption.
      unfold fullDecision, afterCycle. simpl. rewrite Hhist.
      intros Hc. injection Hc as <-. reflexivity.
  - rewrite engine_not_ready by assumption. discriminate.
Qed.

(** C10.  The insufficient-data return leaves the globals untouched; every
    later return, the indicators-not-ready and low-volatility HOLDs
    included, comes after [marketRegime] and [indicatorWeights] have both
    been overwritten for the cycle. *)
Theorem early_return_precedes_mutation (candles : option (list Candle)) (g : Globals) :
  snd (advancedDecisionEngine candles g) =
  match candles with
  | None => g
  | Some c => if length c <? 50 then g else afterCycle c g
  end.
Proof.
  destruct candles as [c|]; [|reflexivity].
  destruct (length c <? 50) eqn:Hlen.
  - rewrite engine_insufficient; [reflexivity|exact Hlen].
  - apply engine_state. exact Hlen.
Qed.

(** The two later HOLD returns do occur with the globals already rewritten. *)
Example later_holds_after_mutation :
  fst (advancedDecisionEngine (Some zero50) freshGlobals) = holdOnly "Indicators not ready"
  /\ Regime.type (marketRegime (snd (advancedDecisionEngine (Some zero50) freshGlobals)))
     = NEUTRAL
  /\ Decision.reason (fst (advancedDecisionEngine (Some flat50) freshGlobals))
     = Literal "Extremely low volatility - no edge"
  /\ Regime.type (marketRegime (snd (advancedDecisionEngine (Some flat50) freshGlobals)))
     = CONSOLIDATION.
Proof. vm_compute. repeat split. Qed.

(** ** Binary64 arithmetic: the order *)

Lemma SFcompare_key (x y : spec_float) :
  SFcompare x y =
  match sf_key x, sf_key y with
  | Some k, Some k' => Some (lex3 k k')
  | _, _ => None
  end.
Proof.
  destruct x as [sx|sx| |sx mx ex], y as [sy|sy| |sy my ey]; simpl;
    try reflexivity;
    try (destruct sx; reflexivity);
    try (destruct sy; reflexivity);
    try (destruct sx, sy; reflexivity).
  destruct sx, sy; simpl; try reflexivity.
  rewrite Z.compare_opp, (Z.compare_antisym ex ey).
  destruct (ex ?= ey)%Z; reflexivity.
Qed.

Lemma lex3_lt_trans (k1 k2 k3 : Z * Z * Z) :
  lex3 k1 k2 = Lt -> lex3 k2 k3 = Lt -> lex3 k1 k3 = Lt.
Proof.
  destruct k1 as [[a1 b1] c1], k2 as [[a2 b2] c2], k3 as [[a3 b3] c3]. unfold lex3.
  destruct (Z.compare_spec a1 a2), (Z.compare_spec a2 a3), (Z.compare_spec a1 a3);
    try discriminate; try lia; try reflexivity;
    destruct (Z.compare_spec b1 b2), (Z.compare_spec b2 b3), (Z.compare_spec b1 b3);
    try discriminate; try lia; try reflexivity;
    destruct (Z.compare_spec c1 c2), (Z.compare_spec c2 c3), (Z.compare_spec c1 c3);
    try discriminate; try lia; reflexivity.
Qed.

Lemma lex3_eq_lt_trans (k1 k2 k3 : Z * Z * Z) :
  lex3 k1 k2 = Eq -> lex3 k2 k3 = Lt -> lex3 k1 k3 = Lt.
Proof.
  destruct k1 as [[a1 b1] c1], k2 as [[a2 b2] c2], k3 as [[a3 b3] c3]. unfold lex3.
  destruct (Z.compare_spec a1 a2), (Z.compare_spec a2 a3), (Z.compare_spec a1 a3);
    try discriminate; try lia; try reflexivity;
    destruct (Z.compare_spec b1 b2), (Z.compare_spec b2 b3), (Z.compare_spec b1 b3);
    try discriminate; try lia; try reflexivity;
    destruct (Z.compare_spec c1 c2), (Z.compare_spec c2 c3), (Z.compare_spec c1 c3);
    try discriminate; try lia; reflexivity.
Qed.

Lemma lex3_lt_eq_trans (k1 k2 k3 : Z * Z * Z) :
  lex3 k1 k2 = Lt -> lex3 k2 k3 = Eq -> lex3 k1 k3 = Lt.
Proof.
  destruct k1 as [[a1 b1] c1], k2 as [[a2 b2] c2], k3 as [[a3 b3] c3]. unfold lex3.
  destruct (Z.compare_spec a1 a2), (Z.compare_spec a2 a3), (Z.compare_spec a1 a3);
    try discriminate; try lia; try reflexivity;
    destruct (Z.compare_spec b1 b2), (Z.compare_spec b2 b3), (Z.compare_spec b1 b3);
    try discriminate; try lia; try reflexivity;
    destruct (Z.compare_spec c1 c2), (Z.compare_spec c2 c3), (Z.compare_spec c1 c3);
    try discriminate; try lia; reflexivity.
Qed.

Local Open Scope float_scope.

(** [<] is transitive, also through [<=]. *)
Lemma float_lt_trans (a b c : float) :
  (a <? b) = true -> (b <? c) = true -> (a <? c) = true.
Proof.
  rewrite !FloatAxioms.ltb_spec. unfold SFltb. rewrite !SFcompare_key.
  destruct (sf_key (Prim2SF a)) as [ka|], (sf_key (Prim2SF b)) as [kb|],
           (sf_key (Prim2SF c)) as [kc|]; try discriminate.
  destruct (lex3 ka kb) eqn:H1; try discriminate.
  destruct (lex3 kb kc) eqn:H2; try discriminate.
  now rewrite (lex3_lt_trans _ _ _ H1 H2).
Qed.

Lemma float_le_lt_trans (a b c : float) :
  (a <=? b) = true -> (b <? c) = true -> (a <? c) = true.
Proof.
  rewrite FloatAxioms.leb_spec, !FloatAxioms.ltb_spec. unfold SFltb, SFleb.
  rewrite !SFcompare_key.
  destruct (sf_key (Prim2SF a)) as [ka|], (sf_key (Prim2SF b)) as [kb|],
           (sf_key (Prim2SF c)) as [kc|]; try discriminate.
  destruct (lex3 kb kc) eqn:H2; try discriminate.
  destruct (lex3 ka kb) eqn:H1; try discriminate; intros _ _.
  - now rewrite (lex3_eq_lt_trans _ _ _ H1 H2).
  - now rewrite (lex3_lt_trans _ _ _ H1 H2).
Qed.

Lemma float_lt_le_trans (a b c : float) :
  (a <? b) = true -> (b <=? c) = true -> (a <? c) = true.
Proof.
  rewrite FloatAxioms.leb_spec, !FloatAxioms.ltb_spec. unfold SFltb, SFleb.
  rewrite !SFcompare_key.
  destruct (sf_key (Prim2SF a)) as [ka|], (sf_key (Prim2SF b)) as [kb|],
           (sf_key (Prim2SF c)) as [kc|]; try discriminate.
  destruct (lex3 ka kb) eqn:H1; try discriminate.
  destruct (lex3 kb kc) eqn:H2; try discriminate; intros _ _.
  - now rewrite (lex3_lt_eq_trans _ _ _ H1 H2).
  - now rewrite (lex3_lt_trans _ _ _ H1 H2).
Qed.

(** [a <= b] excludes [b < a]. *)
Lemma float_le_not_gt (a b : float) : (a <=? b) = true -> (b <? a) = false.
Proof.
  rewrite FloatAxioms.leb_spec, FloatAxioms.ltb_spec. unfold SFltb, SFleb.
  rewrite (SFcompare_antisym (Prim2SF a) (Prim2SF b)).
  destruct (SFcompare (Prim2SF a) (Prim2SF b)) as [[| |]|]; simpl; congruence.
Qed.

(** The absolute value of a positive number is the number. *)
Lemma float_abs_of_positive (c : float) : (0 <? c) = true -> Math.abs c = c.
Proof.
  intros H. apply Prim2SF_inj. unfold Math.abs. rewrite FloatAxioms.abs_spec.
  destruct (float_positive_cases c H) as [->|(m & e & ->)]; reflexivity.
Qed.

(** A number whose absolute value exceeds a bound, and that is not positive,
    lies below the opposite of the bound. *)
Lemma float_abs_of_nonpositive (c bound : float) :
  (bound <? Math.abs c) = true -> (0 <? bound) = true -> (0 <? c) = false ->
  (c <? - bound) = true.
Proof.
  unfold Math.abs.
  rewrite !FloatAxioms.ltb_spec, FloatAxioms.abs_spec, FloatAxioms.opp_spec.
  change (Prim2SF 0) with (S754_zero false). unfold SFltb.
  destruct (Prim2SF c) as [s|s| |s m e], (Prim2SF bound) as [s'|s'| |s' m' e'];
    simpl; try discriminate;
    try (destruct s; discriminate); try (destruct s'; discriminate);
    try (destruct s, s'; simpl; try discriminate; reflexivity).
  destruct s, s'; simpl; try discriminate; try reflexivity.
  change (Pos.compare_cont Eq m' m) with (Pos.compare m' m).
  change (Pos.compare_cont Eq m m') with (Pos.compare m m').
  rewrite (Z.compare_antisym e' e), (Pos.compare_antisym m' m).
  destruct (e' ?= e)%Z; simpl; try discriminate; try reflexivity.
  destruct (m' ?= m)%positive; simpl; congruence.
Qed.

(** A square root is never below zero. *)
Lemma float_sqrt_not_negative (x : float) : (Math.sqrt x <? 0) = false.
Proof.
  unfold Math.sqrt. rewrite FloatAxioms.ltb_spec, FloatAxioms.sqrt_spec.
  change (Prim2SF 0) with (S754_zero false). unfold SF64sqrt, SFsqrt, SFltb.
  destruct (Prim2SF x) as [s|s| |s m e]; try reflexivity.
  - destruct s; reflexivity.
  - destruct s; [reflexivity|].
    destruct (SFsqrt_core_binary prec emax (Z.pos m) e) as [[mz ez] lz] eqn:Hcore.
    assert (Hmz : (0 <= mz)%Z).
    { unfold SFsqrt_core_binary in Hcore.
      match type of Hcore with
      | context [Z.sqrtrem ?n] =>
          pose proof (Z.sqrtrem_sqrt n) as Hs; pose proof (Z.sqrt_nonneg n) as Hn;
          destruct (Z.sqrtrem n) as [q r]
      end.
      cbn [fst] in Hs. rewrite <- Hs in Hn. injection Hcore as <- _ _. exact Hn. }
    pose proof (binary_round_aux_signed false mz ez lz Hmz) as Hsg.
    destruct (binary_round_aux prec emax false mz ez lz) as [s'|s'| |s' m' e'];
      simpl in Hsg; try tauto; subst; reflexivity.
Qed.

Lemma Math_min_le_left (a b : float) :
  is_nan a = false -> is_nan b = false -> (Math.min a b <=? a) = true.
Proof.
  intros Ha Hb. unfold Math.min. rewrite Ha, Hb. simpl.
  destruct (float_compare_cases a b Ha Hb)
    as [(H1 & H2 & H3)|[(H1 & H2 & H3)|(H1 & H2 & H3 & H4)]];
    rewrite H1, ?H2.
  - apply float_leb_refl; exact Ha.
  - exact H3.
  - destruct (get_sign a); [apply float_leb_refl; exact Ha|exact H4].
Qed.

Lemma Math_min_nan_l (a b : float) : is_nan a = true -> is_nan (Math.min a b) = true.
Proof. intros H. unfold Math.min. rewrite H. reflexivity. Qed.

Lemma Math_min_nan_r (a b : float) : is_nan b = true -> is_nan (Math.min a b) = true.
Proof. intros H. unfold Math.min. rewrite H, orb_true_r. reflexivity. Qed.

Lemma Math_max_nan_r (a b : float) : is_nan b = true -> is_nan (Math.max a b) = true.
Proof. intros H. unfold Math.max. rewrite H, orb_true_r. reflexivity. Qed.

Lemma Math_max_nan_l (a b : float) : is_nan a = true -> is_nan (Math.max a b) = true.
Proof. intros H. unfold Math.max. rewrite H. reflexivity. Qed.

Lemma float_nan_not_lt (a b : float) : is_nan b = true -> (a <? b) = false.
Proof.
  rewrite is_nan_spec, FloatAxioms.ltb_spec. unfold SFltb.
  destruct (Prim2SF b); try discriminate. intros _.
  destruct (Prim2SF a); reflexivity.
Qed.

(** A capped value never exceeds the cap (a NaN compares false). *)
Lemma Math_min_not_above (x cap : float) :
  is_nan cap = false -> (cap <? Math.min x cap) = false.
Proof.
  intros Hcap. destruct (is_nan x) eqn:Hx.
  - apply float_nan_not_lt, Math_min_nan_l. exact Hx.
  - apply float_le_not_gt. apply Math_min_spec; assumption.
Qed.

Local Close Scope float_scope.

(** ** Further properties of the indicator library *)

(** Each slot the smoothing loop reaches receives a number; the slots
    beyond its stretch are left alone. *)
Lemma calcRSI_loop_lookup_written p gl i avgGain avgLoss rsi (j : nat) :
  i <= j < i + length gl -> j < length rsi ->
  exists x, calcRSI_loop p gl i avgGain avgLoss rsi !! j = Some (Some x).
Proof.
  revert i avgGain avgLoss rsi.
  induction gl as [|[g l] rest IH]; intros i avgGain avgLoss rsi Hj Hlen; simpl in *; [lia|].
  destruct (decide (j = i)) as [->|Hne].
  - rewrite calcRSI_loop_lookup_before by lia.
    rewrite list_lookup_insert_eq by lia. eauto.
  - apply IH; [lia|rewrite length_insert; lia].
Qed.

(** X1.  [calcRSI] returns [null] exactly on its warm-up: with more than
    [period] values the slots below [period] are [null] and every slot from
    [period] on holds a number; with [period] values or fewer every slot is
    [null]. *)
Theorem calcRSI_warm_up (values : list float) (period i : nat) :
  i < length values ->
  match at_index (calcRSI values period) i with
  | Null => i < period \/ length values <= period
  | Num _ => period <= i /\ period < length values
  | Undefined => False
  end.
Proof.
  intros Hi. unfold at_index, calcRSI.
  destruct (Nat.leb_spec (length values) period) as [Hle|Hgt].
  - rewrite lookup_replicate_2 by exact Hi. right. exact Hle.
  - destruct (Nat.lt_ge_cases i (S period)) as [Hlow|Hhigh].
    + rewrite calcRSI_loop_lookup_before by exact Hlow.
      destruct (decide (i = period)) as [->|Hne].
      * rewrite list_lookup_insert_eq by (rewrite length_replicate; lia). lia.
      * rewrite list_lookup_insert_ne by lia.
        rewrite lookup_replicate_2 by exact Hi. left. lia.
    + edestruct calcRSI_loop_lookup_written as [x Hx]; [| |rewrite Hx; lia].
      * rewrite length_drop, length_zip, gains_length.
        unfold losses, diffs. rewrite length_map, length_zip_with, length_tl. lia.
      * rewrite length_insert, length_replicate. exact Hi.
Qed.

Lemma calcRSI_warm_up_witness :
  match at_index (calcRSI (map close rising50) 14) 13 with
  | Null => 13 < 14 \/ length (map close rising50) <= 14
  | Num _ => 14 <= 13 /\ 14 < length (map close rising50)
  | Undefined => False
  end.
Proof.
  apply (calcRSI_warm_up (map close rising50) 14 13).
  apply Nat.ltb_lt. vm_compute. reflexivity.
Defined.

Lemma calcBollinger_lookup (values : list float) (period : nat) (mult : float) (i : nat) :
  i < length values ->
  calcBollinger values period mult !! i =
  Some (if S i <? period then mkBand Null Null Null
        else
          let window := slice (S i - period) (S i) values in
          let mean := (sum window / Number_of_nat period)%float in
          let std := Math.sqrt (sum_sq_dev mean window / Number_of_nat period)%float in
          mkBand (Num (mean + mult * std)) (Num mean) (Num (mean - mult * std))%float).
Proof.
  intros Hi. unfold calcBollinger.
  change (map ?f ?l) with (f <$> l).
  rewrite list_lookup_fmap, lookup_seq_lt by assumption. reflexivity.
Qed.

(** X2.  At every index of the input the middle Bollinger band is the
    moving average of the same period, the warm-up slots included. *)
Theorem bollinger_middle_is_moving_average (values : list float) (period : nat)
    (mult : float) (i : nat) :
  i < length values ->
  middle (band_at (calcBollinger values period mult) i) = at_index (calcMA values period) i.
Proof.
  intros Hi. unfold band_at, at_index.
  rewrite calcBollinger_lookup, calcMA_lookup by exact Hi.
  destruct (S i <? period); reflexivity.
Qed.

Lemma bollinger_middle_is_moving_average_witness :
  middle (band_at (calcBollinger (map close rising50) 20 2) 30)
  = at_index (calcMA (map close rising50) 20) 30.
Proof.
  apply (bollinger_middle_is_moving_average (map close rising50) 20 2 30).
  apply Nat.ltb_lt. vm_compute. reflexivity.
Defined.

Lemma last_window (values : list float) (period : nat) :
  1 <= period <= length values ->
  slice (S (length values - 1) - period) (S (length values - 1)) values
  = slice_last period values.
Proof.
  intros [Hp Hn]. unfold slice, slice_last.
  destruct period as [|p]; [lia|].
  replace (S (length values - 1) - S p) with (length values - S p) by lia.
  replace (S (length values - 1) - (length values - S p)) with (S p) by lia.
  apply take_ge. rewrite length_drop. lia.
Qed.

(** X3.  Once there are [period] values, the last Bollinger band is the
    last moving average plus and minus [mult] times [calcVolatility]: the
    engine's volatility filter and its Bollinger signal read the same
    deviation. *)
Theorem last_band_is_average_and_volatility (values : list float) (period : nat)
    (mult : float) :
  1 <= period <= length values ->
  let i := length values - 1 in
  let m := toNumber (at_index (calcMA values period) i) in
  let v := calcVolatility values period in
  band_at (calcBollinger values period mult) i
  = mkBand (Num (m + mult * v)) (Num m) (Num (m - mult * v))%float.
Proof.
  intros Hp. cbv zeta. unfold band_at, at_index, calcVolatility.
  rewrite calcBollinger_lookup, calcMA_lookup by lia.
  destruct (Nat.ltb_spec (S (length values - 1)) period) as [H|H]; [lia|].
  destruct (Nat.ltb_spec (length values) period) as [H'|H']; [lia|].
  cbv zeta. rewrite last_window by exact Hp. reflexivity.
Qed.

Lemma last_band_is_average_and_volatility_witness :
  let values := map close rising50 in
  let i := length values - 1 in
  let m := toNumber (at_index (calcMA values 20) i) in
  let v := calcVolatility values 20 in
  band_at (calcBollinger values 20 2) i
  = mkBand (Num (m + 2 * v)) (Num m) (Num (m - 2 * v))%float.
Proof.
  apply (last_band_is_average_and_volatility (map close rising50) 20 2).
  split; apply Nat.leb_le; vm_compute; reflexivity.
Defined.

(** X4.  [calcVolatility] never returns a negative number: it is [0] on a
    short input and a square root otherwise. *)
Theorem calcVolatility_not_negative (closes : list float) (period : nat) :
  (calcVolatility closes period <? 0)%float = false.
Proof.
  unfold calcVolatility. destruct (length closes <? period); [reflexivity|].
  apply float_sqrt_not_negative.
Qed.

(** ** Further properties of the regime classifier *)

(** X5.  The confidence of a detected regime is fixed by its type: 0.85 for
    the strong trends, 0.7 for the trends, 0.6 for high volatility, 0.65 for
    consolidation, 0.5 for neutral and 0 for insufficient data.  The type is
    INSUFFICIENT_DATA exactly when there are fewer than 50 candles, and it
    is never UNKNOWN. *)
Theorem regime_confidence_by_type (candles : list Candle) (g : Globals) :
  let r := fst (detectMarketRegime candles g) in
  Regime.confidence r =
    match Regime.type r with
    | STRONG_UPTREND | STRONG_DOWNTREND => 0.85%float
    | UPTREND | DOWNTREND => 0.7%float
    | HIGH_VOLATILITY => 0.6%float
    | CONSOLIDATION => 0.65%float
    | NEUTRAL => 0.5%float
    | INSUFFICIENT_DATA | UNKNOWN => 0%float
    end
  /\ Regime.type r <> UNKNOWN
  /\ (Regime.type r = INSUFFICIENT_DATA <-> length candles < 50).
Proof.
  unfold detectMarketRegime.
  destruct (Nat.ltb_spec (length candles) 50) as [Hlt|Hge].
  - simpl. repeat split; try discriminate; auto.
  - cbv zeta. split_conditionals; simpl; repeat split; try discriminate;
      intros H; try discriminate H; lia.
Qed.

(** X6.  The type of a detected regime tells what the record holds.  A
    strong trend has a trend beyond 2% in its direction and a volatility
    ratio that is not below 0.003; a plain trend has a trend beyond 1% in its
    direction; high volatility has a ratio above 0.01 and consolidation a
    ratio below 0.003, both without a trend beyond 1%. *)
Theorem regime_type_is_sound (candles : list Candle) (g : Globals) :
  let r := fst (detectMarketRegime candles g) in
  let trend := Regime.trend r in
  let ratio := Regime.volatility r in
  match Regime.type r with
  | STRONG_UPTREND => (0.02 <? trend)%float = true /\ (ratio <? 0.003)%float = false
  | STRONG_DOWNTREND => (trend <? -0.02)%float = true /\ (ratio <? 0.003)%float = false
  | UPTREND => (0.01 <? trend)%float = true
  | DOWNTREND => (trend <? -0.01)%float = true
  | HIGH_VOLATILITY =>
      (0.01 <? Math.abs trend)%float = false /\ (0.01 <? ratio)%float = true
  | CONSOLIDATION =>
      (0.01 <? Math.abs trend)%float = false /\ (ratio <? 0.003)%float = true
  | NEUTRAL =>
      (0.01 <? Math.abs trend)%float = false /\ (0.01 <? ratio)%float = false
      /\ (ratio <? 0.003)%float = false
  | INSUFFICIENT_DATA => length candles < 50
  | UNKNOWN => False
  end.
Proof.
  unfold detectMarketRegime.
  destruct (Nat.ltb_spec (length candles) 50) as [Hlt|Hge]; [exact Hlt|].
  cbv zeta.
  match goal with
  | |- context [(0.02 <? Math.abs ?t)%float] => set (trend := t)
  end.
  match goal with
  | |- context [(?v <? 0.003)%float] => set (ratio := v)
  end.
  destruct (0.02 <? Math.abs trend)%float eqn:H2;
    destruct (ratio <? 0.003)%float eqn:Hlow;
    destruct (0.01 <? Math.abs trend)%float eqn:H1;
    destruct (0 <? trend)%float eqn:Hpos;
    destruct (0.01 <? ratio)%float eqn:Hhigh;
    cbn [andb negb fst Regime.type Regime.trend Regime.volatility];
    repeat split; try assumption;
    try (rewrite <- (float_abs_of_positive trend Hpos); assumption);
    try (apply (float_abs_of_nonpositive trend 0.02); [assumption|reflexivity|assumption]);
    try (apply (float_abs_of_nonpositive trend 0.01); [assumption|reflexivity|assumption]).
Qed.

(** ** Further properties of the pattern and micro-structure analysers *)

(** X7.  The pattern depends on the last three candles only. *)
Theorem pattern_reads_last_three (older : list Candle) (c1 c2 c3 : Candle) :
  identifyCandlestickPattern (older ++ [c1; c2; c3])
  = identifyCandlestickPattern [c1; c2; c3].
Proof.
  unfold identifyCandlestickPattern.
  rewrite length_app. cbn [length].
  replace (length older + 3 <? 3) with false by (symmetry; apply Nat.ltb_ge; lia).
  replace (length older + 3 - 3) with (length older + 0) by lia.
  replace (length older + 3 - 2) with (length older + 1) by lia.
  replace (length older + 3 - 1) with (length older + 2) by lia.
  rewrite !lookup_app_r by lia.
  replace (length older + 0 - length older) with 0 by lia.
  replace (length older + 1 - length older) with 1 by lia.
  replace (length older + 2 - length older) with 2 by lia.
  reflexivity.
Qed.

(** X8.  The label of a recognised pattern fixes its strength and its vote
    in the composite signal: hammer and shooting star vote +0.8 and -0.8,
    the engulfing patterns +0.85 and -0.85, three soldiers and three crows
    +0.9 and -0.9, while NONE and DOJI vote 0.  The confidence boost for a
    strength above 0.7 applies to every label but NONE and DOJI, and with
    fewer than three candles the label is NONE. *)
Theorem pattern_label_fixes_vote (candles : list Candle) :
  let p := identifyCandlestickPattern candles in
  Pattern.strength p =
    match Pattern.pattern p with
    | NONE => 0%float
    | DOJI => 0.7%float
    | HAMMER | SHOOTING_STAR => 0.8%float
    | BULLISH_ENGULFING | BEARISH_ENGULFING => 0.85%float
    | THREE_WHITE_SOLDIERS | THREE_BLACK_CROWS => 0.9%float
    end
  /\ patternSignalOf p =
    match Pattern.pattern p with
    | NONE | DOJI => 0%float
    | HAMMER => 0.8%float
    | SHOOTING_STAR => (-0.8)%float
    | BULLISH_ENGULFING => 0.85%float
    | BEARISH_ENGULFING => (-0.85)%float
    | THREE_WHITE_SOLDIERS => 0.9%float
    | THREE_BLACK_CROWS => (-0.9)%float
    end
  /\ (0.7 <? Pattern.strength p)%float =
    match Pattern.pattern p with
    | NONE | DOJI => false
    | _ => true
    end
  /\ (length candles < 3 -> Pattern.pattern p = NONE).
Proof.
  unfold identifyCandlestickPattern.
  destruct (Nat.ltb_spec (length candles) 3) as [Hlt|Hge].
  - repeat split.
  - destruct (candles !! (length candles - 3)) as [c1|];
      destruct (candles !! (length candles - 2)) as [c2|];
      destruct (candles !! (length candles - 1)) as [c3|];
      cbv zeta; split_conditionals; repeat split; intros; lia.
Qed.

(** X9.  With twenty ticks or more in the buffer, the micro-structure
    analysis depends on the last twenty only. *)
Theorem micro_structure_reads_last_twenty (older recent : list Tick) (c : Candle) :
  length recent = 20 ->
  analyzeMicroStructure (older ++ recent) c = analyzeMicroStructure recent c.
Proof.
  intros H20. unfold analyzeMicroStructure.
  rewrite length_app, H20.
  replace (length older + 20 <? 10) with false by (symmetry; apply Nat.ltb_ge; lia).
  change (20 <? 10) with false. cbv iota.
  assert (Hrecent : slice_last 20 (older ++ recent) = slice_last 20 recent).
  { unfold slice_last. rewrite length_app, H20.
    replace (length older + 20 - 20) with (length older) by lia.
    rewrite drop_app_length. reflexivity. }
  rewrite Hrecent. reflexivity.
Qed.

Lemma micro_structure_reads_last_twenty_witness :
  analyzeMicroStructure
    ([mkTick 0 1; mkTick 1 2] ++ map (fun i => mkTick (Z.of_nat i) (Number_of_nat (100 + i))) (seq 2 20))
    (candleAt 0 100)
  = analyzeMicroStructure
      (map (fun i => mkTick (Z.of_nat i) (Number_of_nat (100 + i))) (seq 2 20))
      (candleAt 0 100).
Proof.
  apply (micro_structure_reads_last_twenty [mkTick 0 1; mkTick 1 2]
           (map (fun i => mkTick (Z.of_nat i) (Number_of_nat (100 + i))) (seq 2 20))
           (candleAt 0 100)).
  reflexivity.
Defined.

(** ** Further properties of the decision engine *)

(** The four ways a call of the engine ends. *)
Lemma engine_outcomes (candles : option (list Candle)) (g : Globals) :
  let d := fst (advancedDecisionEngine candles g) in
  d = holdOnly "Insufficient data"
  \/ d = holdOnly "Indicators not ready"
  \/ (exists c, candles = Some c
        /\ d = Decision.mk HOLD (Literal "Extremely low volatility - no edge") 0 None
                 (Some (lowVolatilitySnapshot c (tickBuffer g))) None None)
  \/ (exists c, candles = Some c /\ (length c <? 50) = false
        /\ d = fullDecision c (afterCycle c g)).
Proof.
  cbv zeta. destruct candles as [c|]; [|left; reflexivity].
  destruct (length c <? 50) eqn:Hlen.
  - left. rewrite engine_insufficient; [reflexivity|exact Hlen].
  - destruct (truthy (upper (band_at (calcBollinger (map close c) 20 2)
                                     (length (map close c) - 1)))) eqn:Hbb.
    + destruct (calcVolatility (map close c) 20 <? 0.002)%float eqn:Hvol.
      * right. right. left. exists c. split; [reflexivity|].
        apply engine_low_volatility; assumption.
      * right. right. right. exists c. split; [reflexivity|]. split; [exact Hlen|].
        apply engine_full; assumption.
    + right. left. apply engine_not_ready; assumption.
Qed.

(** X10.  Whatever the candles and the globals, the confidence of the
    returned decision never exceeds 0.95. *)
Theorem confidence_never_above_cap (candles : option (list Candle)) (g : Globals) :
  (0.95 <? Decision.confidence (fst (advancedDecisionEngine candles g)))%float = false.
Proof.
  destruct (engine_outcomes candles g)
    as [H|[H|[(c & _ & H)|(c & _ & _ & H)]]]; rewrite H; try reflexivity.
  unfold fullDecision, confidenceOf. cbn [Decision.confidence].
  apply Math_min_not_above. reflexivity.
Qed.

(** What each action of [selectAction] requires of the signal and the
    confidence. *)
Lemma selectAction_sound (c conf : float) (ty : RegimeType) (pat : PatternName) :
  match fst (selectAction c conf ty pat) with
  | HOLD => True
  | BUY => (1.5 <? c)%float = true /\ (0.65 <? conf)%float = true
  | STRONG_BUY => (4 <? c)%float = true /\ (0.65 <? conf)%float = true
  | SELL => (c <? -1.5)%float = true /\ (0.65 <? conf)%float = true
  | STRONG_SELL => (c <? -4)%float = true /\ (0.65 <? conf)%float = true
  end.
Proof.
  unfold selectAction.
  destruct (2.5 <? c)%float eqn:Hbuy; destruct (0.65 <? conf)%float eqn:Hconf;
    cbn [andb].
  - destruct (4 <? c)%float eqn:H4; cbn [fst]; split; try reflexivity; try assumption.
    apply (float_lt_trans 1.5 2.5 c); [reflexivity|exact Hbuy].
  - destruct (c <? -2.5)%float; cbn [andb];
      destruct (1.5 <? Math.abs c)%float; destruct (0.7 <? conf)%float eqn:H7;
        cbn [andb fst]; try exact I;
        rewrite (float_lt_trans 0.65 0.7 conf eq_refl H7) in Hconf; discriminate.
  - destruct (c <? -2.5)%float eqn:Hsell; cbn [andb].
    + destruct (c <? -4)%float eqn:H4; cbn [fst]; split; try reflexivity; try assumption.
      apply (float_lt_trans c (-2.5) (-1.5)); [exact Hsell|reflexivity].
    + destruct (1.5 <? Math.abs c)%float eqn:Habs; destruct (0.7 <? conf)%float;
        cbn [andb]; try exact I.
      destruct (0 <? c)%float eqn:Hpos; cbn [fst]; split; try reflexivity.
      * rewrite <- (float_abs_of_positive c Hpos). exact Habs.
      * apply (float_abs_of_nonpositive c 1.5); [exact Habs|reflexivity|exact Hpos].
  - destruct (c <? -2.5)%float; cbn [andb];
      destruct (1.5 <? Math.abs c)%float; destruct (0.7 <? conf)%float eqn:H7;
        cbn [andb fst]; try exact I;
        rewrite (float_lt_trans 0.65 0.7 conf eq_refl H7) in Hconf; discriminate.
Qed.

(** X11.  A decision to buy carries a composite signal above 1.5 (above 4
    for STRONG BUY) and a decision to sell one below -1.5 (below -4 for
    STRONG SELL); in both cases the confidence is above 0.65. *)
Theorem action_follows_signal (candles : option (list Candle)) (g : Globals) :
  let d := fst (advancedDecisionEngine candles g) in
  match Decision.action d with
  | HOLD => True
  | BUY => exists c, Decision.compositeSignal d = Some c
                     /\ (1.5 <? c)%float = true
                     /\ (0.65 <? Decision.confidence d)%float = true
  | STRONG_BUY => exists c, Decision.compositeSignal d = Some c
                            /\ (4 <? c)%float = true
                            /\ (0.65 <? Decision.confidence d)%float = true
  | SELL => exists c, Decision.compositeSignal d = Some c
                      /\ (c <? -1.5)%float = true
                      /\ (0.65 <? Decision.confidence d)%float = true
  | STRONG_SELL => exists c, Decision.compositeSignal d = Some c
                             /\ (c <? -4)%float = true
                             /\ (0.65 <? Decision.confidence d)%float = true
  end.
Proof.
  cbv zeta.
  destruct (engine_outcomes candles g)
    as [H|[H|[(c & _ & H)|(c & _ & _ & H)]]]; rewrite H; try exact I.
  unfold fullDecision. cbv zeta.
  cbn [Decision.action Decision.compositeSignal Decision.confidence].
  match goal with
  | |- context [selectAction ?a ?b ?t ?p] =>
      pose proof (selectAction_sound a b t p) as Hs;
      destruct (fst (selectAction a b t p)); try exact I;
      destruct Hs as [Hc Hconf]; eexists; repeat split; eassumption
  end.
Qed.

(** X12.  A decision without a composite signal is a HOLD with confidence 0
    that echoes neither regime nor weights; a decision with one carries the
    indicator snapshot and echoes the regime and the weights the call has
    just stored in the globals. *)
Theorem decision_shape (candles : option (list Candle)) (g : Globals) :
  let d := fst (advancedDecisionEngine candles g) in
  let g' := snd (advancedDecisionEngine candles g) in
  match Decision.compositeSignal d with
  | None =>
      Decision.action d = HOLD /\ Decision.confidence d = 0%float
      /\ Decision.regime d = None /\ Decision.weights d = None
  | Some _ =>
      Decision.indicators d <> None
      /\ Decision.regime d = Some (marketRegime g')
      /\ Decision.weights d = Some (indicatorWeights g')
  end.
Proof.
  cbv zeta.
  destruct (engine_outcomes candles g)
    as [H|[H|[(c & _ & H)|(c & -> & Hlen & H)]]]; rewrite H; try (repeat split; fail).
  rewrite engine_state by exact Hlen.
  unfold fullDecision. cbn. repeat split. discriminate.
Qed.

(** After a cycle, the regime and the four table weights do not depend on
    the regime and weights the cycle found. *)
Lemma afterCycle_forgets (c : list Candle) (g1 g2 : Globals) :
  tradeHistory g1 = tradeHistory g2 ->
  let w1 := indicatorWeights (afterCycle c g1) in
  let w2 := indicatorWeights (afterCycle c g2) in
  marketRegime (afterCycle c g1) = marketRegime (afterCycle c g2)
  /\ Weights.ma w1 = Weights.ma w2 /\ Weights.rsi w1 = Weights.rsi w2
  /\ Weights.bb w1 = Weights.bb w2 /\ Weights.momentum w1 = Weights.momentum w2.
Proof.
  intros Hhist. unfold afterCycle. cbn [marketRegime indicatorWeights].
  rewrite (detectMarketRegime_state_independent c g1 g2), Hhist.
  split; [reflexivity|].
  unfold winRateScaling.
  destruct (0.65 <? recentWinRate (tradeHistory g2))%float;
    [|destruct (recentWinRate (tradeHistory g2) <? 0.45)%float];
    destruct (Regime.type (fst (detectMarketRegime c g2))); simpl; auto.
Qed.

(** X13.  A decision does not depend on the regime or the weights left by
    earlier cycles: from two program states with the same tick buffer and the
    same stored history, the same candles give the same action, reason,
    confidence, composite signal, indicator snapshot and regime. *)
Theorem decision_ignores_stale_state (candles : option (list Candle)) (g1 g2 : Globals) :
  tickBuffer g1 = tickBuffer g2 ->
  tradeHistory g1 = tradeHistory g2 ->
  let d1 := fst (advancedDecisionEngine candles g1) in
  let d2 := fst (advancedDecisionEngine candles g2) in
  Decision.action d1 = Decision.action d2
  /\ Decision.reason d1 = Decision.reason d2
  /\ Decision.confidence d1 = Decision.confidence d2
  /\ Decision.compositeSignal d1 = Decision.compositeSignal d2
  /\ Decision.indicators d1 = Decision.indicators d2
  /\ Decision.regime d1 = Decision.regime d2.
Proof.
  intros Hticks Hhist. cbv zeta.
  destruct candles as [c|]; [|repeat split].
  destruct (length c <? 50) eqn:Hlen.
  - rewrite !engine_insufficient by exact Hlen. repeat split.
  - destruct (truthy (upper (band_at (calcBollinger (map close c) 20 2)
                                     (length (map close c) - 1)))) eqn:Hbb.
    + destruct (calcVolatility (map close c) 20 <? 0.002)%float eqn:Hvol.
      * rewrite !engine_low_volatility by assumption. rewrite Hticks. repeat split.
      * rewrite !engine_full by assumption.
        destruct (afterCycle_forgets c g1 g2 Hhist) as (Hr & Hma & Hrsi & Hbbw & Hmom).
        assert (Hsig : cycleSignals c (afterCycle c g1) = cycleSignals c (afterCycle c g2)).
        { unfold cycleSignals, trendSignalOf, momentumSignalOf, rsiSignalOf, bbSignalOf.
          rewrite Hma, Hrsi, Hbbw, Hmom.
          unfold afterCycle. cbn [tickBuffer]. rewrite Hticks. reflexivity. }
        unfold fullDecision. rewrite Hsig, Hr.
        change (tradeHistory (afterCycle c g1)) with (tradeHistory g1).
        change (tradeHistory (afterCycle c g2)) with (tradeHistory g2).
        change (tickBuffer (afterCycle c g1)) with (tickBuffer g1).
        change (tickBuffer (afterCycle c g2)) with (tickBuffer g2).
        rewrite Hticks, Hhist. repeat split.
    + rewrite !engine_not_ready by assumption. repeat split.
Qed.

Lemma decision_ignores_stale_state_witness :
  let d1 := fst (advancedDecisionEngine (Some rising50) freshGlobals) in
  let d2 := fst (advancedDecisionEngine (Some rising50) staleGlobals) in
  Decision.action d1 = Decision.action d2
  /\ Decision.reason d1 = Decision.reason d2
  /\ Decision.confidence d1 = Decision.confidence d2
  /\ Decision.compositeSignal d1 = Decision.compositeSignal d2
  /\ Decision.indicators d1 = Decision.indicators d2
  /\ Decision.regime d1 = Decision.regime d2.
Proof.
  apply (decision_ignores_stale_state (Some rising50) freshGlobals staleGlobals);
    reflexivity.
Defined.

(** ** The stored history and the win rate *)

Lemma ratio_table :
  forallb (fun n => forallb (fun k => ratio_in_unit k n) (seq 0 (S n))) (seq 1 20) = true.
Proof. vm_compute. reflexivity. Qed.

Lemma ratio_small (k n : nat) : 1 <= n <= 20 -> k <= n -> ratio_in_unit k n = true.
Proof.
  intros Hn Hk.
  pose proof ratio_table as Ht.
  rewrite forallb_forall in Ht.
  specialize (Ht n ltac:(apply in_seq; lia)).
  rewrite forallb_forall in Ht.
  apply Ht. apply in_seq. lia.
Qed.

(** X14.  The win rate the engine computes always lies between 0 and 1,
    whatever the stored history holds. *)
Theorem recentWinRate_in_unit_interval (hist : list TradeRecord) :
  (0 <=? recentWinRate hist)%float = true /\ (recentWinRate hist <=? 1)%float = true.
Proof.
  unfold recentWinRate.
  set (recentTrades := slice 0 20 hist).
  assert (Hn : length recentTrades <= 20).
  { unfold recentTrades, slice. rewrite length_take. lia. }
  destruct (Nat.ltb_spec 0 (length recentTrades)) as [Hpos|Hzero]; [|split; reflexivity].
  pose proof (ratio_small
                (length (List.filter (fun t => String.eqb (result t) "WIN") recentTrades))
                (length recentTrades) ltac:(lia) (List.filter_length_le _ _)) as Hr.
  unfold ratio_in_unit in Hr. apply andb_true_iff in Hr. exact Hr.
Qed.

(** X15.  Only the twenty records at the front of the stored history, the
    most recent ones, count for the win rate. *)
Theorem recentWinRate_reads_front (recent older : list TradeRecord) :
  length recent = 20 ->
  recentWinRate (recent ++ older) = recentWinRate recent.
Proof.
  intros H20. unfold recentWinRate, slice.
  rewrite !drop_0, Nat.sub_0_r.
  rewrite take_app_length' by (symmetry; exact H20).
  rewrite take_ge by lia. reflexivity.
Qed.

Lemma recentWinRate_reads_front_witness :
  recentWinRate (replicate 20 (mkTradeRecord "WIN") ++ replicate 7 (mkTradeRecord "LOSS"))
  = recentWinRate (replicate 20 (mkTradeRecord "WIN")).
Proof.
  apply (recentWinRate_reads_front (replicate 20 (mkTradeRecord "WIN"))
                                   (replicate 7 (mkTradeRecord "LOSS"))).
  reflexivity.
Defined.

(** ** The live feed *)

Lemma drop_one_snoc {A} (l : list A) (x : A) :
  0 < length l -> drop 1 (l ++ [x]) = drop 1 l ++ [x].
Proof. destruct l; simpl; [lia|]. rewrite !drop_0. reflexivity. Qed.

Lemma lookup_last_index {A} (l : list A) : l !! (length l - 1) = last l.
Proof. rewrite last_lookup, Nat.sub_1_r. reflexivity. Qed.

(** X16.  A tick handled by the message handler ends up last in the tick
    buffer, behind the ticks that were there, of which only the oldest may
    be dropped; a buffer of at most 50 ticks stays at most 50 long.  The
    regime, the weights, the stored history and the granularity are not
    touched. *)
Theorem tick_buffer_keeps_latest_fifty (t : Tick) (candleData : list Candle) (g : Globals) :
  length (tickBuffer g) <= 50 ->
  let g' := snd (onTick t candleData g) in
  length (tickBuffer g') <= 50
  /\ last (tickBuffer g') = Some t
  /\ (tickBuffer g' = tickBuffer g ++ [t] \/ tickBuffer g' = drop 1 (tickBuffer g) ++ [t])
  /\ marketRegime g' = marketRegime g
  /\ indicatorWeights g' = indicatorWeights g
  /\ tradeHistory g' = tradeHistory g
  /\ granularity g' = granularity g.
Proof.
  intros Hlen. cbv zeta.
  assert (Hg : snd (onTick t candleData g)
               = mkGlobals (marketRegime g) (indicatorWeights g)
                           (pushTick t (tickBuffer g)) (tradeHistory g) (granularity g)).
  { unfold onTick, bind, gets, set_tickBuffer, ret. cbn.
    destruct (candleData !! (length candleData - 1)); [|reflexivity].
    destruct (_ && _); reflexivity. }
  rewrite Hg. cbn [tickBuffer marketRegime indicatorWeights tradeHistory granularity].
  unfold pushTick. rewrite length_app. cbn [length].
  destruct (Nat.ltb_spec 50 (length (tickBuffer g) + 1)) as [Hfull|Hroom].
  - rewrite drop_one_snoc by lia.
    rewrite length_app, length_drop, last_snoc. cbn [length].
    repeat split; try lia. right. reflexivity.
  - rewrite length_app, last_snoc. cbn [length].
    repeat split; try lia. left. reflexivity.
Qed.

Lemma tick_buffer_keeps_latest_fifty_witness :
  let g := mkGlobals initialRegime initialWeights
                     (replicate 50 (mkTick 1 100)) [] 60 in
  let g' := snd (onTick (mkTick 2 101) rising50 g) in
  length (tickBuffer g') <= 50
  /\ last (tickBuffer g') = Some (mkTick 2 101)
  /\ (tickBuffer g' = tickBuffer g ++ [mkTick 2 101]
      \/ tickBuffer g' = drop 1 (tickBuffer g) ++ [mkTick 2 101])
  /\ marketRegime g' = marketRegime g
  /\ indicatorWeights g' = indicatorWeights g
  /\ tradeHistory g' = tradeHistory g
  /\ granularity g' = granularity g.
Proof.
  apply (tick_buffer_keeps_latest_fifty (mkTick 2 101) rising50
           (mkGlobals initialRegime initialWeights (replicate 50 (mkTick 1 100)) [] 60)).
  apply Nat.leb_le. vm_compute. reflexivity.
Defined.

(** X17.  A tick never starts a candle history and never shortens one: an
    empty history stays empty, and a history of at most 200 candles is
    either left as it is or ends with the candle of the tick, which then
    lies more than the granularity after the candle that was last, and has
    at most 200 candles. *)
Theorem tick_extends_candle_history (t : Tick) (candleData : list Candle) (g : Globals) :
  length candleData <= CANDLES_COUNT ->
  let candleData' := fst (onTick t candleData g) in
  (candleData = [] -> candleData' = [])
  /\ length candleData <= length candleData' <= CANDLES_COUNT
  /\ (candleData' = candleData
      \/ exists lastCandle,
           last candleData = Some lastCandle
           /\ (Math.of_Z (epoch lastCandle) + granularity g <? Math.of_Z (tick_epoch t))%float
              = true
           /\ last candleData' = Some (tickCandle t)
           /\ (candleData' = candleData ++ [tickCandle t]
               \/ candleData' = drop 1 candleData ++ [tickCandle t])).
Proof.
  intros Hlen. cbv zeta.
  unfold onTick, bind, gets, set_tickBuffer, ret. cbn [fst snd granularity].
  rewrite lookup_last_index.
  destruct (last candleData) as [lastCandle|] eqn:Hlast.
  - assert (Hne : 0 < length candleData).
    { destruct candleData; [discriminate|simpl; lia]. }
    destruct (Nat.ltb_spec 0 (length candleData)) as [_|]; [|lia]. cbn [andb].
    change (epoch (tickCandle t)) with (tick_epoch t).
    destruct (Math.of_Z (epoch lastCandle) + granularity g <? Math.of_Z (tick_epoch t))%float
      eqn:Hgap; cbn [fst].
    + rewrite length_app. cbn [length].
      destruct (Nat.ltb_spec CANDLES_COUNT (length candleData + 1)) as [Hfull|Hroom].
      * rewrite drop_one_snoc by lia.
        rewrite length_app, length_drop. cbn [length].
        split; [intros ->; discriminate|]. split; [lia|].
        right. exists lastCandle. rewrite last_snoc. repeat split; auto.
      * rewrite length_app. cbn [length].
        split; [intros ->; discriminate|]. split; [lia|].
        right. exists lastCandle. rewrite last_snoc. repeat split; auto.
    + split; [auto|]. split; [lia|]. left. reflexivity.
  - cbn [fst]. split; [auto|]. split; [lia|]. left. reflexivity.
Qed.

Lemma tick_extends_candle_history_witness :
  let candleData' := fst (onTick (mkTick 3060 150) rising50 freshGlobals) in
  (rising50 = [] -> candleData' = [])
  /\ length rising50 <= length candleData' <= CANDLES_COUNT
  /\ (candleData' = rising50
      \/ exists lastCandle,
           last rising50 = Some lastCandle
           /\ (Math.of_Z (epoch lastCandle) + granularity freshGlobals
               <? Math.of_Z (tick_epoch (mkTick 3060 150)))%float = true
           /\ last candleData' = Some (tickCandle (mkTick 3060 150))
           /\ (candleData' = rising50 ++ [tickCandle (mkTick 3060 150)]
               \/ candleData' = drop 1 rising50 ++ [tickCandle (mkTick 3060 150)])).
Proof.
  apply (tick_extends_candle_history (mkTick 3060 150) rising50 freshGlobals).
  apply Nat.leb_le. vm_compute. reflexivity.
Defined.

(** ** Bookkeeping and simulation *)

(** X18.  Saving a trade record always puts its result at the front of the
    stored history, where the engine's win rate looks first, and leaves the
    regime, the weights, the tick buffer and the granularity alone.  The
    call throws, with the metrics untouched, exactly when one of the first
    200 stored profits, that of the new record included, is [null] (a
    profit that was NaN or infinite); otherwise it returns, having appended
    an entry with the current regime type to the regime log, which keeps at
    most 100 entries. *)
Theorem saved_record_is_first_and_log_bounded (record : Trade.t) (s : Session) :
  length (Metrics.regimeHistory (performanceMetrics s)) <= 100 ->
  let outcome := fst (saveHistoryRecord record s) in
  let s' := snd (saveHistoryRecord record s) in
  tradeHistory (globals s') = mkTradeRecord (Trade.result record) :: tradeHistory (globals s)
  /\ storedProfits s' = jsonNumber (Trade.profit record) :: storedProfits s
  /\ marketRegime (globals s') = marketRegime (globals s)
  /\ indicatorWeights (globals s') = indicatorWeights (globals s)
  /\ tickBuffer (globals s') = tickBuffer (globals s)
  /\ granularity (globals s') = granularity (globals s)
  /\ match outcome with
     | Throws =>
         existsb is_null (take 200 (storedProfits s')) = true
         /\ performanceMetrics s' = performanceMetrics s
     | Returns =>
         existsb is_null (take 200 (storedProfits s')) = false
         /\ length (Metrics.regimeHistory (performanceMetrics s')) <= 100
         /\ last (Metrics.regimeHistory (performanceMetrics s'))
            = Some (RegimeEntry.mk (Trade.time record)
                                   (Regime.type (marketRegime (globals s)))
                                   (Trade.result record))
     end.
Proof.
  intros Hlen. cbv zeta. unfold saveHistoryRecord, renderHistory_throws.
  destruct (existsb is_null (take 200 (jsonNumber (Trade.profit record) :: storedProfits s)))
    eqn:Hnull; cbn [fst snd].
  - cbn [globals storedProfits performanceMetrics tradeHistory marketRegime
         indicatorWeights tickBuffer granularity].
    repeat split. exact Hnull.
  - unfold updatePerformanceMetrics.
    cbn [globals storedProfits performanceMetrics tradeHistory marketRegime
         indicatorWeights tickBuffer granularity Metrics.regimeHistory].
    do 6 (split; [reflexivity|]).
    split; [exact Hnull|].
    rewrite length_app. cbn [length].
    destruct (Nat.ltb_spec 100 (length (Metrics.regimeHistory (performanceMetrics s)) + 1))
      as [Hfull|Hroom].
    + rewrite drop_one_snoc by lia.
      rewrite length_app, length_drop, last_snoc. cbn [length].
      split; [lia|reflexivity].
    + rewrite length_app, last_snoc. cbn [length].
      split; [lia|reflexivity].
Qed.

Lemma saved_record_is_first_and_log_bounded_witness :
  let record := Trade.mk "10:00:00" "SIMULATION" "R_100" 1 BUY "WIN" (Num 1.75) 0.8
                         STRONG_UPTREND 60 in
  let s := mkSession freshGlobals []
             (Metrics.mk 60 40 5 (replicate 100 (RegimeEntry.mk "09:00:00" NEUTRAL "LOSS")))
             100 in
  let outcome := fst (saveHistoryRecord record s) in
  let s' := snd (saveHistoryRecord record s) in
  tradeHistory (globals s') = mkTradeRecord (Trade.result record) :: tradeHistory (globals s)
  /\ storedProfits s' = jsonNumber (Trade.profit record) :: storedProfits s
  /\ marketRegime (globals s') = marketRegime (globals s)
  /\ indicatorWeights (globals s') = indicatorWeights (globals s)
  /\ tickBuffer (globals s') = tickBuffer (globals s)
  /\ granularity (globals s') = granularity (globals s)
  /\ match outcome with
     | Throws =>
         existsb is_null (take 200 (storedProfits s')) = true
         /\ performanceMetrics s' = performanceMetrics s
     | Returns =>
         existsb is_null (take 200 (storedProfits s')) = false
         /\ length (Metrics.regimeHistory (performanceMetrics s')) <= 100
         /\ last (Metrics.regimeHistory (performanceMetrics s'))
            = Some (RegimeEntry.mk (Trade.time record)
                                   (Regime.type (marketRegime (globals s)))
                                   (Trade.result record))
     end.
Proof.
  apply (saved_record_is_first_and_log_bounded
           (Trade.mk "10:00:00" "SIMULATION" "R_100" 1 BUY "WIN" (Num 1.75) 0.8
                     STRONG_UPTREND 60)
           (mkSession freshGlobals []
              (Metrics.mk 60 40 5 (replicate 100 (RegimeEntry.mk "09:00:00" NEUTRAL "LOSS")))
              100)).
  apply Nat.leb_le. vm_compute. reflexivity.
Defined.

(** Capping a number from above and then from below, in the order the
    simulation does it. *)
Lemma cap_then_floor (lo hi x : float) :
  is_nan lo = false -> is_nan hi = false -> (lo <=? hi)%float = true ->
  is_nan (Math.max lo (Math.min hi x)) = true
  \/ ((lo <=? Math.max lo (Math.min hi x))%float = true
      /\ (Math.max lo (Math.min hi x) <=? hi)%float = true).
Proof.
  intros Hlo Hhi Hle.
  destruct (is_nan x) eqn:Hx.
  - left. apply Math_max_nan_r, Math_min_nan_r. exact Hx.
  - right.
    destruct (Math_min_spec hi x Hhi Hx) as [Hmin_nan _].
    pose proof (Math_min_le_left hi x Hhi Hx) as Hmin_le.
    destruct (Math_max_spec lo (Math.min hi x) Hlo Hmin_nan) as [Hmax_ge Hmax_le].
    split; [exact Hmax_ge|].
    apply Hmax_le; [exact Hle|exact Hmin_le].
Qed.

(** X19.  The win probability of a simulated trade, when it is a number,
    lies between 0.3 and 0.85, whatever the confidence, the signal, the
    regime and the pattern. *)
Theorem simulated_win_chance_capped (confidence : float) (compositeSignal : JsNum)
    (regimeType : RegimeType) (pattern : Pattern.t) :
  let chance := simulatedWinChance confidence compositeSignal regimeType pattern in
  is_nan chance = true
  \/ ((0.3 <=? chance)%float = true /\ (chance <=? 0.85)%float = true).
Proof.
  cbv zeta. unfold simulatedWinChance. cbv zeta.
  apply cap_then_floor; reflexivity.
Qed.

Lemma draw_above_cap_loses (random chance : float) :
  (0.85 <=? random)%float = true ->
  is_nan chance = true \/ ((0.3 <=? chance)%float = true /\ (chance <=? 0.85)%float = true) ->
  (random <? chance)%float = false.
Proof.
  intros Hdraw [Hnan|[_ Hcap]].
  - apply float_nan_not_lt. exact Hnan.
  - destruct (random <? chance)%float eqn:Hlt; [|reflexivity].
    pose proof (float_lt_le_trans random chance 0.85 Hlt Hcap) as Hbelow.
    rewrite (float_le_not_gt 0.85 random Hdraw) in Hbelow. discriminate.
Qed.

Lemma is_infinity_spec (x : float) :
  PrimFloat.is_infinity x = match Prim2SF x with S754_infinity _ => true | _ => false end.
Proof.
  unfold PrimFloat.is_infinity.
  rewrite FloatAxioms.eqb_spec, FloatAxioms.abs_spec.
  change (Prim2SF infinity) with (S754_infinity false).
  destruct (Prim2SF x) as [s|s| |s m e]; reflexivity.
Qed.

(** A stake that is not a finite number gives a loss that JSON writes as
    [null]. *)
Lemma loss_of_non_finite_stake (amount : float) :
  is_nan amount || PrimFloat.is_infinity amount = true ->
  jsonNumber (Num (amount * -1)) = Null.
Proof.
  intros H. unfold jsonNumber.
  assert (Hp : is_nan (amount * -1) || PrimFloat.is_infinity (amount * -1) = true).
  { revert H. rewrite !is_nan_spec, !is_infinity_spec, FloatAxioms.mul_spec.
    change (Prim2SF (-1)) with (S754_finite true 4503599627370496 (-52)).
    destruct (Prim2SF amount) as [s|s| |s m e]; try discriminate; intros _; reflexivity. }
  rewrite Hp. reflexivity.
Qed.

(** X20.  A simulated trade whose draw is 0.85 or more is a loss, whatever
    the decision: a LOSS record goes to the front of the stored history with
    minus the stake as its profit, and the win counter stays.  When the
    call returns, the loss counter and the number of trades have gone up by
    one and the total profit down by the stake; it throws instead, with the
    metrics and the number of trades untouched, exactly when one of the
    first 200 stored profits is then [null], which a stake that is NaN or
    infinite brings about. *)
Theorem simulated_draw_above_cap_loses (params : Params.t) (indicators : Indicators.t)
    (random : float) (now : string) (s : Session) :
  (0.85 <=? random)%float = true ->
  let outcome := fst (simulateTrade params indicators random now s) in
  let s' := snd (simulateTrade params indicators random now s) in
  tradeHistory (globals s') = mkTradeRecord "LOSS" :: tradeHistory (globals s)
  /\ storedProfits s' = jsonNumber (Num (Params.amount params * -1)) :: storedProfits s
  /\ Metrics.wins (performanceMetrics s') = Metrics.wins (performanceMetrics s)
  /\ match outcome with
     | Throws =>
         existsb is_null (take 200 (storedProfits s')) = true
         /\ performanceMetrics s' = performanceMetrics s
         /\ tradesMade s' = tradesMade s
     | Returns =>
         existsb is_null (take 200 (storedProfits s')) = false
         /\ Metrics.losses (performanceMetrics s')
            = (Metrics.losses (performanceMetrics s) + 1)%float
         /\ Metrics.totalProfit (performanceMetrics s')
            = (Metrics.totalProfit (performanceMetrics s) + Params.amount params * -1)%float
         /\ tradesMade s' = (tradesMade s + 1)%float
     end
  /\ (is_nan (Params.amount params) || PrimFloat.is_infinity (Params.amount params) = true ->
      outcome = Throws).
Proof.
  intros Hdraw. cbv zeta. unfold simulateTrade.
  destruct (Params.decisionObj params) as [d|];
    match goal with
    | |- context [simulatedWinChance ?a ?b ?c ?p] =>
        rewrite (draw_above_cap_loses random (simulatedWinChance a b c p) Hdraw
                   (cap_then_floor 0.3 0.85 _ eq_refl eq_refl eq_refl))
    end;
    unfold saveHistoryRecord, renderHistory_throws;
    cbn [Trade.profit Trade.result];
    destruct (existsb is_null
                (take 200 (jsonNumber (Num (Params.amount params * -1)) :: storedProfits s)))
      eqn:Hnull;
    cbn [fst snd globals storedProfits performanceMetrics tradesMade tradeHistory
         updatePerformanceMetrics Metrics.wins Metrics.losses Metrics.totalProfit
         Trade.result Trade.profit String.eqb Ascii.eqb Bool.eqb toNumber];
    repeat split; try exact Hnull;
    intros Hstake; rewrite (loss_of_non_finite_stake _ Hstake) in Hnull; discriminate Hnull.
Qed.

Lemma simulated_draw_above_cap_loses_witness :
  let params := Params.mk 2 "R_100" CALL 60 BUY None in
  let indicators := lowVolatilitySnapshot rising50 [] in
  let s := mkSession freshGlobals [] initialMetrics 0 in
  let outcome := fst (simulateTrade params indicators 0.9 "10:00:00" s) in
  let s' := snd (simulateTrade params indicators 0.9 "10:00:00" s) in
  tradeHistory (globals s') = mkTradeRecord "LOSS" :: tradeHistory (globals s)
  /\ storedProfits s' = jsonNumber (Num (Params.amount params * -1)) :: storedProfits s
  /\ Metrics.wins (performanceMetrics s') = Metrics.wins (performanceMetrics s)
  /\ match outcome with
     | Throws =>
         existsb is_null (take 200 (storedProfits s')) = true
         /\ performanceMetrics s' = performanceMetrics s
         /\ tradesMade s' = tradesMade s
     | Returns =>
         existsb is_null (take 200 (storedProfits s')) = false
         /\ Metrics.losses (performanceMetrics s')
            = (Metrics.losses (performanceMetrics s) + 1)%float
         /\ Metrics.totalProfit (performanceMetrics s')
            = (Metrics.totalProfit (performanceMetrics s) + Params.amount params * -1)%float
         /\ tradesMade s' = (tradesMade s + 1)%float
     end
  /\ (is_nan (Params.amount params) || PrimFloat.is_infinity (Params.amount params) = true ->
      outcome = Throws).
Proof.
  apply (simulated_draw_above_cap_loses (Params.mk 2 "R_100" CALL 60 BUY None)
           (lowVolatilitySnapshot rising50 []) 0.9 "10:00:00"
           (mkSession freshGlobals [] initialMetrics 0)).
  vm_compute. reflexivity.
Defined.

(** ** The trade intent *)

Lemma float_lt_asym (a b : float) : (a <? b)%float = true -> (b <? a)%float = false.
Proof.
  rewrite !FloatAxioms.ltb_spec. unfold SFltb.
  rewrite (SFcompare_antisym (Prim2SF a) (Prim2SF b)).
  destruct (SFcompare (Prim2SF a) (Prim2SF b)) as [[| |]|]; simpl; congruence.
Qed.

(** The duration clamp, for a positive base and a positive multiplier. *)
Lemma duration_clamped (base m : float) :
  (0 <? base)%float = true -> (0 <? m)%float = true ->
  (base <=? Math.max base (Math.min (Math.round (base * m)) (base * 3)))%float = true
  /\ (Math.max base (Math.min (Math.round (base * m)) (base * 3)) <=? base * 3)%float = true.
Proof.
  intros Hbase Hm. apply clamp_between.
  - apply float_positive_not_nan; exact Hbase.
  - apply Math_round_not_nan, float_mul_positive_not_nan; assumption.
  - apply float_mul_positive_not_nan; [exact Hbase|reflexivity].
  - apply float_le_triple; exact Hbase.
Qed.

(** X21.  [autoCheck] builds trade parameters exactly when the engine's
    decision is not HOLD: its own confidence test never stops a decision
    the engine let through.  The parameters carry the decision, the
    selected symbol, a stake that is a number other than 0, and a CALL only
    on a composite signal above 1.5, a PUT only on one below -1.5. *)
Theorem autoCheck_trades_on_non_hold (candleData : list Candle) (stake : float)
    (symbol : string) (g : Globals) :
  let d := fst (advancedDecisionEngine (Some candleData) g) in
  match fst (autoCheck candleData stake symbol g) with
  | None => Decision.action d = HOLD
  | Some params =>
      Decision.action d <> HOLD
      /\ Params.decision params = Decision.action d
      /\ Params.decisionObj params = Some d
      /\ Params.symbol params = symbol
      /\ truthy_number (Params.amount params) = true
      /\ (0.65 <? Decision.confidence d)%float = true
      /\ exists c, Decision.compositeSignal d = Some c
           /\ match Params.contract_type params with
              | CALL => (1.5 <? c)%float = true /\ includesBUY (Decision.action d) = true
              | PUT => (c <? -1.5)%float = true /\ includesBUY (Decision.action d) = false
              end
  end.
Proof.
  cbv zeta. unfold autoCheck.
  destruct (length candleData <? 50) eqn:Hlen.
  - rewrite engine_insufficient by exact Hlen. reflexivity.
  - destruct (engine_outcomes (Some candleData) g)
      as [H|[H|[(c & _ & H)|(c & Hc & _ & H)]]]; cbv zeta in H;
      unfold bind;
      destruct (advancedDecisionEngine (Some candleData) g) as [d g'];
      cbn [fst snd] in *; subst d;
      try (cbn; reflexivity).
    injection Hc as <-.
    unfold fullDecision. cbv zeta.
    cbn [Decision.action Decision.confidence Decision.indicators Decision.compositeSignal].
    match goal with
    | |- context [selectAction ?a ?b ?t ?p] =>
        pose proof (selectAction_sound a b t p) as Hs;
        destruct (selectAction a b t p) as [act why]
    end.
    cbn [fst snd] in *.
    destruct act; try (cbn; reflexivity);
      destruct Hs as [Hc Hconf];
      rewrite (float_lt_asym _ _ Hconf);
      cbn [orb]; unfold optimizeTradeDuration, bind, gets, ret;
      destruct (confidenceAdjustment _ _) as [m r]; cbn [fst snd];
      cbn [Params.decision Params.decisionObj Params.symbol Params.amount
           Params.contract_type includesBUY];
      (split; [discriminate|]);
      (split; [reflexivity|]); (split; [reflexivity|]); (split; [reflexivity|]);
      (split; [destruct (truthy_number stake) eqn:Hstake; [exact Hstake|reflexivity]|]);
      (split; [exact Hconf|]);
      eexists; (split; [reflexivity|]);
      (split; [|reflexivity]);
      first [ exact Hc
            | exact (float_lt_trans 1.5 4 _ eq_refl Hc)
            | exact (float_lt_trans _ (-4) (-1.5) Hc eq_refl) ].
Qed.

(** X22.  With a positive granularity, the duration of every trade
    [autoCheck] proposes lies between the granularity and three times the
    granularity. *)
Theorem autoCheck_duration_in_range (candleData : list Candle) (stake : float)
    (symbol : string) (g : Globals) :
  (0 <? granularity g)%float = true ->
  match fst (autoCheck candleData stake symbol g) with
  | None => True
  | Some params =>
      (granularity g <=? Params.duration params)%float = true
      /\ (Params.duration params <=? granularity g * 3)%float = true
  end.
Proof.
  intros Hbase. unfold autoCheck.
  destruct (length candleData <? 50) eqn:Hlen; [exact I|].
  pose proof (engine_state candleData g Hlen) as Hstate.
  unfold bind.
  destruct (advancedDecisionEngine (Some candleData) g) as [d g'].
  cbn [fst snd] in *. subst g'.
  destruct (_ || _); [exact I|].
  destruct (Decision.indicators d) as [indicators|]; [|exact I].
  unfold gets, ret, optimizeTradeDuration, bind. cbn [fst snd].
  change (granularity (afterCycle candleData g)) with (granularity g).
  pose proof (duration_adjustments (Decision.confidence d)
                (Indicators.volatility indicators) (Indicators.pattern indicators)
                (Regime.type (marketRegime (afterCycle candleData g)))) as Hadj.
  cbv zeta in Hadj.
  destruct (confidenceAdjustment _ _) as [m r]. cbn [fst snd] in *.
  destruct Hadj as [Hm _].
  cbn [Params.duration DurationPlan.duration].
  apply duration_clamped; assumption.
Qed.

Lemma autoCheck_duration_in_range_witness :
  match fst (autoCheck rising50 2 "R_100" freshGlobals) with
  | None => True
  | Some params =>
      (granularity freshGlobals <=? Params.duration params)%float = true
      /\ (Params.duration params <=? granularity freshGlobals * 3)%float = true
  end.
Proof.
  apply (autoCheck_duration_in_range rising50 2 "R_100" freshGlobals).
  vm_compute. reflexivity.
Defined.

(** ** The indicators never look ahead *)

Lemma slice_within {A} (from to : nat) (l more : list A) :
  to <= length l -> slice from to (l ++ more) = slice from to l.
Proof.
  intros Hto. unfold slice.
  destruct (Nat.le_gt_cases from (length l)) as [Hfrom|Hfrom].
  - rewrite drop_app_le by exact Hfrom.
    rewrite take_app_le; [reflexivity|]. rewrite length_drop. lia.
  - replace (to - from) with 0 by lia. reflexivity.
Qed.

(** X23.  Later values do not change what the moving average and the
    Bollinger bands say about earlier indices: computed on a longer series,
    their slots over the shorter series are those computed on the shorter
    series alone. *)
Theorem moving_average_and_bands_never_look_ahead (values more : list float)
    (period : nat) (mult : float) :
  take (length values) (calcMA (values ++ more) period) = calcMA values period
  /\ take (length values) (calcBollinger (values ++ more) period mult)
     = calcBollinger values period mult.
Proof.
  unfold calcMA, calcBollinger.
  rewrite length_app, seq_app, !map_app.
  split.
  - rewrite take_app_length' by (rewrite length_map, length_seq; reflexivity).
    apply map_ext_in. intros i Hi. apply in_seq in Hi.
    rewrite slice_within by lia. reflexivity.
  - rewrite take_app_length' by (rewrite length_map, length_seq; reflexivity).
    apply map_ext_in. intros i Hi. apply in_seq in Hi.
    rewrite slice_within by lia. reflexivity.
Qed.

Lemma calcEMA_from_prefix (k prev : float) (values more : list float) :
  take (length values) (calcEMA_from k prev (values ++ more)) = calcEMA_from k prev values.
Proof.
  revert prev. induction values as [|v rest IH]; intros prev; simpl; [reflexivity|].
  rewrite IH. reflexivity.
Qed.

Lemma calcEMA_prefix (values more : list float) (period : nat) :
  take (length values) (calcEMA (values ++ more) period) = calcEMA values period.
Proof.
  unfold calcEMA. destruct values as [|v0 rest]; simpl; [reflexivity|].
  rewrite calcEMA_from_prefix. reflexivity.
Qed.

Lemma take_imap {A B} (f : nat -> A -> B) (n : nat) (l : list A) :
  take n (imap f l) = imap f (take n l).
Proof.
  revert f n. induction l as [|x l IH]; intros f n; destruct n; simpl; try reflexivity.
  rewrite IH. reflexivity.
Qed.

(** A difference against a longer list that agrees on the indices read. *)
Lemma imap_sub_prefix (n : nat) (xs ys ys' : list float) :
  length xs <= n -> take n ys' = ys ->
  imap (fun i x => (x - num_at ys' i)%float) xs = imap (fun i x => (x - num_at ys i)%float) xs.
Proof.
  intros Hlen Htake. apply imap_ext. intros i x Hix. cbn beta.
  apply lookup_lt_Some in Hix.
  unfold num_at.
  rewrite <- Htake, lookup_take_lt by lia. reflexivity.
Qed.

(** X24.  Later values do not change the exponential moving average or the
    three MACD lines at earlier indices. *)
Theorem macd_never_looks_ahead (values more : list float)
    (period fastPeriod slowPeriod signalPeriod : nat) :
  let n := length values in
  let short := calcMACD values fastPeriod slowPeriod signalPeriod in
  let long := calcMACD (values ++ more) fastPeriod slowPeriod signalPeriod in
  take n (calcEMA (values ++ more) period) = calcEMA values period
  /\ take n (macdLine long) = macdLine short
  /\ take n (signalLine long) = signalLine short
  /\ take n (histogram long) = histogram short.
Proof.
  cbv zeta. unfold calcMACD. cbn [macdLine signalLine histogram].
  split; [apply calcEMA_prefix|].
  assert (Hmacd :
    take (length values)
         (imap (fun i f => (f - num_at (calcEMA (values ++ more) slowPeriod) i)%float)
               (calcEMA (values ++ more) fastPeriod))
    = imap (fun i f => (f - num_at (calcEMA values slowPeriod) i)%float)
           (calcEMA values fastPeriod)).
  { rewrite take_imap, calcEMA_prefix.
    apply (imap_sub_prefix (length values)).
    - rewrite calcEMA_length. lia.
    - apply calcEMA_prefix. }
  set (line' := imap _ (calcEMA (values ++ more) fastPeriod)) in *.
  set (line := imap _ (calcEMA values fastPeriod)) in *.
  assert (Hlen : length line = length values).
  { unfold line. rewrite length_imap, calcEMA_length. reflexivity. }
  assert (Hsplit : line' = line ++ drop (length values) line').
  { rewrite <- Hmacd. symmetry. apply take_drop. }
  assert (Hsignal : take (length values) (calcEMA line' signalPeriod)
                    = calcEMA line signalPeriod).
  { rewrite Hsplit, <- Hlen. apply calcEMA_prefix. }
  split; [exact Hmacd|]. split; [exact Hsignal|].
  rewrite take_imap, Hmacd.
  apply (imap_sub_prefix (length values)); [lia|exact Hsignal].
Qed.

Lemma diffs_cons2 (a b : float) (rest : list float) :
  diffs (a :: b :: rest) = (b - a)%float :: diffs (b :: rest).
Proof. reflexivity. Qed.

Lemma diffs_prefix (values more : list float) :
  take (length values - 1) (diffs (values ++ more)) = diffs values.
Proof.
  induction values as [|a [|b rest] IH]; [reflexivity|reflexivity|].
  change ((a :: b :: rest) ++ more) with (a :: b :: (rest ++ more)).
  rewrite !diffs_cons2.
  replace (length (a :: b :: rest) - 1) with (S (length (b :: rest) - 1))
    by (cbn [length]; lia).
  cbn [take]. f_equal. exact IH.
Qed.

Lemma diffs_length (values : list float) : length (diffs values) = length values - 1.
Proof.
  induction values as [|a [|b rest] IH]; [reflexivity|reflexivity|].
  rewrite diffs_cons2. cbn [length] in *. lia.
Qed.

(** The loop reads its pairs in order: what it leaves at an index depends
    on the pairs up to that index only. *)
Lemma calcRSI_loop_prefix p gl more i avgGain avgLoss rsi rsi' (j : nat) :
  j < i + length gl -> j < length rsi -> j < length rsi' ->
  rsi !! j = rsi' !! j ->
  calcRSI_loop p (gl ++ more) i avgGain avgLoss rsi !! j
  = calcRSI_loop p gl i avgGain avgLoss rsi' !! j.
Proof.
  revert i avgGain avgLoss rsi rsi'.
  induction gl as [|[g l] rest IH]; intros i avgGain avgLoss rsi rsi' Hj Hlen Hlen' Hsame.
  - simpl in Hj. cbn [app calcRSI_loop].
    rewrite calcRSI_loop_lookup_before by lia. exact Hsame.
  - cbn [app calcRSI_loop length] in *.
    apply IH; [lia|rewrite length_insert; lia|rewrite length_insert; lia|].
    destruct (decide (j = i)) as [->|Hne].
    + rewrite !list_lookup_insert_eq by lia. reflexivity.
    + rewrite !list_lookup_insert_ne by lia. exact Hsame.
Qed.

(** X25.  Later values do not change the RSI at earlier indices, the
    warm-up included: computed on a longer series, its slots over the
    shorter series are those computed on the shorter series alone. *)
Theorem rsi_never_looks_ahead (values more : list float) (period : nat) :
  take (length values) (calcRSI (values ++ more) period) = calcRSI values period.
Proof.
  apply list_eq. intros j.
  destruct (Nat.lt_ge_cases j (length values)) as [Hj|Hj].
  2:{ rewrite lookup_take_ge by lia.
      symmetry. apply lookup_ge_None_2. rewrite calcRSI_length. lia. }
  rewrite lookup_take_lt by exact Hj.
  unfold calcRSI. rewrite length_app.
  destruct (Nat.leb_spec (length values) period) as [Hshort|Hlong].
  - rewrite lookup_replicate_2 by exact Hj.
    destruct (Nat.leb_spec (length values + length more) period) as [Hshort'|Hlong'].
    + apply lookup_replicate_2. lia.
    + rewrite calcRSI_loop_lookup_before by lia.
      rewrite list_lookup_insert_ne by lia.
      apply lookup_replicate_2. lia.
  - destruct (Nat.leb_spec (length values + length more) period) as [Hshort'|_]; [lia|].
    assert (Hg : take (length values - 1) (gains (values ++ more)) = gains values).
    { unfold gains. rewrite <- (diffs_prefix values more).
      change (map ?f ?l) with (f <$> l). rewrite fmap_take. reflexivity. }
    assert (Hl : take (length values - 1) (losses (values ++ more)) = losses values).
    { unfold losses. rewrite <- (diffs_prefix values more).
      change (map ?f ?l) with (f <$> l). rewrite fmap_take. reflexivity. }
    assert (Hglen : length (gains values) = length values - 1).
    { unfold gains. rewrite length_map. apply diffs_length. }
    assert (Hllen : length (losses values) = length values - 1).
    { unfold losses. rewrite length_map. apply diffs_length. }
    assert (Hgs : slice 0 period (gains (values ++ more)) = slice 0 period (gains values)).
    { rewrite <- (take_drop (length values - 1) (gains (values ++ more))), Hg.
      apply slice_within. lia. }
    assert (Hls : slice 0 period (losses (values ++ more)) = slice 0 period (losses values)).
    { rewrite <- (take_drop (length values - 1) (losses (values ++ more))), Hl.
      apply slice_within. lia. }
    rewrite Hgs, Hls.
    assert (Hzip : exists rest,
               drop period (zip (gains (values ++ more)) (losses (values ++ more)))
               = drop period (zip (gains values) (losses values)) ++ rest).
    { exists (zip (drop (length values - 1) (gains (values ++ more)))
                  (drop (length values - 1) (losses (values ++ more)))).
      rewrite <- (take_drop (length values - 1) (gains (values ++ more))) at 1.
      rewrite <- (take_drop (length values - 1) (losses (values ++ more))) at 1.
      rewrite Hg, Hl.
      rewrite zip_with_app by lia.
      apply drop_app_le. rewrite length_zip_with. lia. }
    destruct Hzip as [rest ->].
    apply calcRSI_loop_prefix.
    + rewrite length_drop, length_zip_with. lia.
    + rewrite length_insert, length_replicate. lia.
    + rewrite length_insert, length_replicate. lia.
    + destruct (decide (j = period)) as [->|Hne].
      * rewrite !list_lookup_insert_eq by (rewrite length_replicate; lia). reflexivity.
      * rewrite !list_lookup_insert_ne by lia.
        rewrite !lookup_replicate_2 by lia. reflexivity.
Qed.

(** ** The indicator weights stay in range *)

(** X26.  After [updateIndicatorWeights], whatever the regime, the win rate
    and the weights before the call, the weights of the moving average, the
    RSI, the Bollinger bands and the momentum each lie between 0.4 and
    1.7. *)
Theorem table_weights_stay_in_range (regime : Regime.t) (winRate : float) (g : Globals) :
  let w := indicatorWeights (snd (updateIndicatorWeights regime winRate g)) in
  Forall (fun x => (0.4 <=? x)%float = true /\ (x <=? 1.7)%float = true)
         [Weights.ma w; Weights.rsi w; Weights.bb w; Weights.momentum w].
Proof.
  cbv zeta. unfold updateIndicatorWeights, bind, gets, set_indicatorWeights.
  cbn [fst snd indicatorWeights]. unfold winRateScaling.
  destruct (0.65 <? winRate)%float; [|destruct (winRate <? 0.45)%float];
    destruct (Regime.type regime);
    cbn [regimeTable scaleWeights Weights.ma Weights.rsi Weights.bb Weights.momentum];
    repeat match goal with
           | |- Forall _ (_ :: _) => constructor
           | |- Forall _ [] => constructor
           | |- _ /\ _ => split
           end; vm_compute; reflexivity.
Qed.
